(** * Smart Expense Tracker: the ledger and aggregation pipeline of [app.py]

    A shallow embedding of the Streamlit script [src/app.py].  One run of the
    script is a computation over the session state, the data file and the
    messages shown to the user; [st.stop()] and Python exceptions end the run
    and keep the state reached so far.

    Conventions of the embedding.
    - A cell of a pandas frame is a [cell]; a missing value (NaN, NaT) is the
      absence of the column's key in the row.
    - A number is a float64 value, held as the rational it denotes ([Q]).
      Python's [==] and [<] on numbers compare these values ([Qeq], [Qlt]);
      arithmetic rounds to float64 after every operation ([round64]).
      Infinities and NaN are outside the model, and a column of integers is
      taken as the float64 column of the same values.  The order in which
      [Series.sum()] and [groupby(...).sum()] add is a parameter.
    - A timestamp is the number of nanoseconds since 1970-01-01, as in
      [datetime64[ns]].
    - What pandas does to text ([read_csv], [to_csv], the parsers behind
      [to_datetime] and [to_numeric]) is a parameter, the class [Pandas]. *)

From Stdlib Require Import Ascii String QArith ZArith Qround Sorted.
From stdpp Require Import gmap strings list fin_maps.

Open Scope Z_scope.

(** ** Cells, rows, frames *)

Inductive cell :=
| Text (s : string)
| Number (q : Q)
| Timestamp (ns : Z).

Global Instance Q_eq_dec : EqDecision Q.
Proof. solve_decision. Defined.

Global Instance cell_eq_dec : EqDecision cell.
Proof. solve_decision. Defined.

Abbreviation row := (gmap string cell).

Record frame := DataFrame { columns : list string; rows : list row }.

Global Instance frame_eq_dec : EqDecision frame.
Proof. solve_decision. Defined.

(** [df.empty]: one of the two axes has length 0. *)
Definition empty (df : frame) : bool :=
  match columns df, rows df with
  | [], _ | _, [] => true
  | _, _ => false
  end.

(** [df[c] = value] with a scalar: a new column goes last. *)
Definition assign_scalar (c : string) (v : cell) (df : frame) : frame :=
  DataFrame (if decide (c ∈ columns df) then columns df else columns df ++ [c])
            (map (insert c v) (rows df)).

(** [df[c] = f(df[c])] for a cell-wise [f] that may yield a missing value. *)
Definition coerce_column (f : cell → option cell) (c : string) (df : frame) : frame :=
  DataFrame (columns df) (map (partial_alter (λ o, o ≫= f) c) (rows df)).

Definition notna (subset : list string) (r : row) : Prop :=
  Forall (λ c, is_Some (r !! c)) subset.

Global Instance notna_dec subset r : Decision (notna subset r).
Proof. unfold notna. apply _. Defined.

(** [df.dropna(subset=...)] *)
Definition dropna (subset : list string) (df : frame) : frame :=
  DataFrame (columns df) (filter (notna subset) (rows df)).

(** [pd.concat([a, b], ignore_index=True)]: the columns of [a], then those of
    [b] that [a] lacks; a row has no value in a column it did not come with. *)
Definition concat (a b : frame) : frame :=
  DataFrame (columns a ++ filter (λ c, c ∉ columns a) (columns b))
            (rows a ++ rows b).

(** ** Calendar fields of a timestamp *)

Definition ns_per_day : Z := 86400 * 1000000000.

(** Days since 1970-01-01 of a proleptic Gregorian date. *)
Definition days_from_civil (y m d : Z) : Z :=
  let y := if m <=? 2 then y - 1 else y in
  let era := y / 400 in
  let yoe := y - era * 400 in
  let doy := (153 * (if 2 <? m then m - 3 else m + 9) + 2) / 5 + d - 1 in
  let doe := yoe * 365 + yoe / 4 - yoe / 100 + doy in
  era * 146097 + doe - 719468.

(** Year and month of the day [z] days after 1970-01-01. *)
Definition year_month_of_days (z : Z) : Z * Z :=
  let z := z + 719468 in
  let era := z / 146097 in
  let doe := z - era * 146097 in
  let yoe := (doe - doe / 1460 + doe / 36524 - doe / 146096) / 365 in
  let doy := doe - (365 * yoe + yoe / 4 - yoe / 100) in
  let mp := (5 * doy + 2) / 153 in
  let m := if mp <? 10 then mp + 3 else mp - 9 in
  (yoe + era * 400 + (if m <=? 2 then 1 else 0), m).

Definition digit (n : Z) : string :=
  String (Ascii.ascii_of_nat (48 + Z.to_nat (n mod 10))) EmptyString.

(** [str(ts.to_period("M"))], the key [YYYY-MM]. *)
Definition month_key (ns : Z) : string :=
  let '(y, m) := year_month_of_days (ns / ns_per_day) in
  digit (y / 1000) +:+ digit (y / 100) +:+ digit (y / 10) +:+ digit y
    +:+ "-" +:+ digit (m / 10) +:+ digit m.

(** ** Float64 arithmetic *)

(** The integer nearest to [n / d], ties to the even one ([0 <= n], [0 < d]). *)
Definition round_half_even (n d : Z) : Z :=
  let q := n / d in
  match 2 * (n mod d) ?= d with
  | Lt => q
  | Gt => q + 1
  | Eq => if Z.even q then q else q + 1
  end.

(** [n / d / 2 ^ p] as a fraction of integers. *)
Definition scaled (n d p : Z) : Z * Z :=
  if 0 <=? p then (n, d * 2 ^ p) else (n * 2 ^ (- p), d).

(** The [e] with [2 ^ e <= n / d < 2 ^ (e + 1)] ([0 < n], [0 < d]). *)
Definition binade (n d : Z) : Z :=
  let e := Z.log2 n - Z.log2 d in
  let '(n', d') := scaled n d e in
  if n' <? d' then e - 1 else e.

(** The float64 nearest to a rational, ties to the even mantissa: 53 bits
    of mantissa from the binade of the value, one fixed step below
    [2 ^ -1022]. *)
Definition round64 (q : Q) : Q :=
  let n := Qnum q in
  let d := Zpos (Qden q) in
  if n =? 0 then 0%Q else
  let p := Z.max (binade (Z.abs n) d) (-1022) - 52 in
  let '(n', d') := scaled (Z.abs n) d p in
  let m := Z.sgn n * round_half_even n' d' in
  Qred (if 0 <=? p then inject_Z (m * 2 ^ p)
        else Qmake m (Z.to_pos (2 ^ (- p)))).

Definition fl_add (x y : Q) : Q := round64 (x + y).
Definition fl_mul (x y : Q) : Q := round64 (x * y).
Definition fl_div (x y : Q) : Q := round64 (x / y).

(** Adding from the left, starting at 0. *)
Definition fl_sum (l : list Q) : Q := foldl fl_add 0%Q l.

(** ** The pandas text layer *)

Class Pandas := {
  (** the content of a CSV file *)
  csv : Type;
  (** [df.to_csv(path, index=False)] *)
  to_csv : frame → csv;
  (** [pd.read_csv(path)] *)
  read_csv : csv → frame;
  (** the date parser of [pd.to_datetime]; [None] where it fails *)
  datetime_of_text : string → option Z;
  (** [pd.to_datetime] on a number; [None] when out of bounds *)
  datetime_of_number : Q → option Z;
  (** the number parser of [pd.to_numeric]; [None] where it fails *)
  numeric_of_text : string → option Q;
  (** [Series.sum()] of the present float64 values of a column, in pandas'
      order of additions; the sum of no value is 0 *)
  series_sum : list Q → Q;
  series_sum_nil : series_sum [] = 0%Q;
  (** [groupby(...).sum()] of the values of one group, in pandas' order of
      additions *)
  group_sum : list Q → Q
}.

(** ** The script *)

Inductive exn :=
| KeyError (key : string)
| AttributeError (name : string)
| TypeError
| ValueError.

Inductive notice :=
| success (msg : string)
| error (msg : string)
| warning (msg : string)
| info (msg : string).

Inductive outcome (A : Type) :=
| Done (a : A)
| Stopped
| Raised (e : exn).
Arguments Done {A} a.
Arguments Stopped {A}.
Arguments Raised {A} e.

Inductive category :=
| Food | Travel | Shopping | Bills | Entertainment | Education | Other.

Definition category_name (c : category) : string :=
  match c with
  | Food => "Food" | Travel => "Travel" | Shopping => "Shopping"
  | Bills => "Bills" | Entertainment => "Entertainment"
  | Education => "Education" | Other => "Other"
  end.

(** A [datetime.date]. *)
Record date := Date { year : Z; month : Z; day : Z }.

(** The submitted expense form. *)
Record expense_form := ExpenseForm {
  expense_date : date;
  form_category : category;
  amount : Q;
  description : string
}.

Section Script.
Context `{Pandas}.

(** [pd.to_datetime(column, errors="coerce")], cell by cell. *)
Definition to_datetime (c : cell) : option cell :=
  match c with
  | Timestamp ns => Some (Timestamp ns)
  | Text s => Timestamp <$> datetime_of_text s
  | Number q => Timestamp <$> datetime_of_number q
  end.

(** [pd.to_numeric(column, errors="coerce")], cell by cell; a timestamp is
    read as its nanosecond count. *)
Definition to_numeric (c : cell) : option cell :=
  match c with
  | Number q => Some (Number q)
  | Text s => Number <$> numeric_of_text s
  | Timestamp ns => Some (Number (inject_Z ns))
  end.

(** [pd.to_datetime(expense_date)]: midnight of that day. *)
Definition timestamp_of_date (d : date) : Z :=
  days_from_civil (year d) (month d) (day d) * ns_per_day.

(** The state a run works on: [st.session_state.df] when set, the content of
    [expenses.csv] when the file exists, the memo of [st.cache_data] for
    [load_data], and the messages put on the page. *)
Record app := App {
  session_df : option frame;
  data_file : option csv;
  load_cache : option frame;
  screen : list notice
}.

Definition script (A : Type) : Type := app → outcome A * app.

Global Instance script_ret : MRet script := λ A a w, (Done a, w).
Global Instance script_bind : MBind script := λ A B k m w,
  match m w with
  | (Done a, w') => k a w'
  | (Stopped, w') => (Stopped, w')
  | (Raised e, w') => (Raised e, w')
  end.

Definition st_stop {A} : script A := λ w, (Stopped, w).
Definition raise {A} (e : exn) : script A := λ w, (Raised e, w).

Definition display (n : notice) : script unit := λ w,
  (Done (), App (session_df w) (data_file w) (load_cache w) (screen w ++ [n])).

Definition set_session_df (df : frame) : script unit := λ w,
  (Done (), App (Some df) (data_file w) (load_cache w) (screen w)).

Definition get_session_df : script frame := λ w,
  match session_df w with
  | Some df => (Done df, w)
  | None => (Raised (AttributeError "df"), w)
  end.

(** [df.to_csv(DATA_FILE, index=False)]: the file is rewritten as a whole. *)
Definition write_data_file (df : frame) : script unit := λ w,
  (Done (), App (session_df w) (Some (to_csv df)) (load_cache w) (screen w)).

(** [df[c]] of a column the frame lacks raises [KeyError]. *)
Definition getitem (c : string) (df : frame) : script unit :=
  if decide (c ∈ columns df) then mret () else raise (KeyError c).

Definition coerce_types (df : frame) : script frame :=
  getitem "Date" df;;
  let df := coerce_column to_datetime "Date" df in
  getitem "Amount" df;;
  mret (coerce_column to_numeric "Amount" df).

Definition schema : list string := ["Date"; "Category"; "Amount"; "Description"].

(** The body of [load_data]. *)
Definition load_data_body : script frame := λ w,
  match data_file w with
  | None =>
    let df := DataFrame schema [] in
    (write_data_file df;; mret df) w
  | Some file => coerce_types (read_csv file) w
  end.

(** [@st.cache_data]: the value of the first call that returns is kept. *)
Definition cache_data (body : script frame) : script frame := λ w,
  match load_cache w with
  | Some df => (Done df, w)
  | None =>
    match body w with
    | (Done df, w') =>
      (Done df, App (session_df w') (data_file w') (Some df) (screen w'))
    | r => r
    end
  end.

Definition load_data : script frame := cache_data load_data_body.

(** [if "df" not in st.session_state: st.session_state.df = load_data()] *)
Definition init_session : script unit := λ w,
  match session_df w with
  | Some _ => (Done (), w)
  | None => (df ← load_data; set_session_df df) w
  end.

(** The [if submitted:] block. *)
Definition new_row (form : expense_form) : row :=
  <["Date" := Timestamp (timestamp_of_date (expense_date form))]>
  (<["Category" := Text (category_name (form_category form))]>
  (<["Amount" := Number (amount form)]>
  (<["Description" := Text (description form)]> ∅))).

Definition add_expense (form : expense_form) : script unit :=
  df ← get_session_df;
  set_session_df (concat df (DataFrame schema [new_row form]));;
  df ← get_session_df;
  write_data_file df;;
  display (success "✅ Expense Added").

Definition required_cols : list string := ["Date"; "Category"; "Amount"].

(** The [if uploaded:] block; [temp_df] is what [pd.read_csv(uploaded)] gave. *)
Definition upload_csv (temp_df : frame) : script unit :=
  (if decide (required_cols ⊆ columns temp_df) then mret ()
   else display (error "CSV must contain Date, Category, Amount columns");; st_stop);;
  let temp_df :=
    if decide ("Description" ∈ columns temp_df) then temp_df
    else assign_scalar "Description" (Text "") temp_df in
  temp_df ← coerce_types temp_df;
  let temp_df := dropna ["Date"; "Amount"] temp_df in
  set_session_df temp_df;;
  write_data_file temp_df;;
  display (success "✅ CSV Uploaded & Dashboard Updated").

End Script.

(** ** Selection, ordering and grouping *)

(** Python's [==] between two present values. *)
Definition cell_eqb (a b : cell) : bool :=
  match a, b with
  | Text s, Text t => String.eqb s t
  | Number p, Number q => Qeq_bool p q
  | Timestamp m, Timestamp n => m =? n
  | _, _ => false
  end.

(** The Python type of a value of a column; a missing value is the float NaN. *)
Inductive pytype := PyStr | PyFloat | PyTimestamp.

Global Instance pytype_eq_dec : EqDecision pytype.
Proof. solve_decision. Defined.

Definition pytype_of (v : option cell) : pytype :=
  match v with
  | Some (Text _) => PyStr
  | Some (Number _) | None => PyFloat
  | Some (Timestamp _) => PyTimestamp
  end.

(** The order pandas sorts group keys in.  Within one type it is Python's
    [<]; across types (which the script does not reach: [sorted] has raised
    before) numbers come first and text last. *)
Definition cell_ltb (a b : cell) : bool :=
  match a, b with
  | Text s, Text t => String.ltb s t
  | Number p, Number q => negb (Qle_bool q p)
  | Timestamp m, Timestamp n => m <? n
  | Number _, _ => true
  | Timestamp _, Text _ => true
  | _, _ => false
  end.

(** Python's [<] within one type; every comparison with NaN is false. *)
Definition value_ltb (a b : option cell) : bool :=
  match a, b with
  | Some x, Some y => cell_ltb x y
  | _, _ => false
  end.

Definition value_eqb (a b : option cell) : bool :=
  match a, b with
  | Some x, Some y => cell_eqb x y
  | None, None => true
  | _, _ => false
  end.

Section Sorting.
Context {A : Type} (eqb ltb : A → A → bool).

(** First occurrences, in order. *)
Fixpoint unique (l : list A) : list A :=
  match l with
  | [] => []
  | x :: l => x :: filter (λ y, negb (eqb x y)) (unique l)
  end.

Fixpoint insert_sorted (x : A) (l : list A) : list A :=
  match l with
  | [] => [x]
  | y :: l' => if ltb x y then x :: l else y :: insert_sorted x l'
  end.

Definition sorted (l : list A) : list A := foldr insert_sorted [] l.

End Sorting.

(** [df[c]] as the list of its values. *)
Definition column (c : string) (df : frame) : list (option cell) :=
  map (λ r, r !! c) (rows df).

(** [df[df[c] == v]] *)
Definition col_eq (c : string) (v : option cell) (r : row) : bool :=
  match r !! c, v with
  | Some x, Some y => cell_eqb x y
  | _, _ => false
  end.

Definition select (c : string) (v : option cell) (df : frame) : frame :=
  DataFrame (columns df) (filter (λ r, col_eq c v r) (rows df)).

Definition All : string := "All".

(** The two [if selected_... != "All":] steps on [filtered_df]. *)
Definition filter_view (selected_month : string) (selected_category : option cell)
    (df : frame) : frame :=
  let filtered_df := df in
  let filtered_df :=
    if decide (selected_month ≠ All)
    then select "Month" (Some (Text selected_month)) filtered_df
    else filtered_df in
  if decide (selected_category ≠ Some (Text All))
  then select "Category" selected_category filtered_df
  else filtered_df.

(** The present numbers of the Amount column, in row order: what
    [df["Amount"].sum()] adds (missing values are skipped). *)
Definition amounts (df : frame) : list Q :=
  omap (λ r, match r !! "Amount" with
             | Some (Number q) => Some q
             | _ => None
             end) (rows df).

(** The distinct present keys of [df.groupby(key)], in key order; rows whose
    key is missing are in no group. *)
Definition group_keys (key : string) (df : frame) : list cell :=
  sorted cell_ltb (unique cell_eqb (omap (λ r, r !! key) (rows df))).

Fixpoint idxmax_from (best : cell * Q) (l : list (cell * Q)) : cell :=
  match l with
  | [] => best.1
  | kv :: l => if negb (Qle_bool kv.2 best.2) then idxmax_from kv l
               else idxmax_from best l
  end.

(** [Series.idxmax()]: the label of the first maximum. *)
Definition idxmax (s : list (cell * Q)) : outcome cell :=
  match s with
  | [] => Raised ValueError
  | kv :: s => Done (idxmax_from kv s)
  end.

Section Aggregates.
Context `{Pandas}.

(** [df["Amount"].sum()] *)
Definition total_amount (df : frame) : Q := series_sum (amounts df).

(** The sum of the group of key [k]. *)
Definition group_total (key : string) (df : frame) (k : cell) : Q :=
  group_sum (amounts (select key (Some k) df)).

(** [df.groupby(key)["Amount"].sum()]: one entry per group, in key order. *)
Definition groupby_sum (key : string) (df : frame) : list (cell * Q) :=
  map (λ k, (k, group_total key df k)) (group_keys key df).

Definition category_breakdown (df : frame) : list (cell * Q) :=
  groupby_sum "Category" df.

Definition top_category (filtered_df : frame) : outcome cell :=
  if empty filtered_df then Done (Text "N/A")
  else idxmax (groupby_sum "Category" filtered_df).

End Aggregates.

Definition budget_exceeded : notice := error "🚨 Budget Exceeded!".
Definition approaching_budget : notice := warning "⚠ Approaching Budget Limit".
Definition budget_under_control : notice := success "✅ Budget Under Control".

(** [usage = (total_expense / monthly_budget) * 100], in float64 *)
Definition budget_usage (total_expense monthly_budget : Q) : Q :=
  fl_mul (fl_div total_expense monthly_budget) 100%Q.

(** The [if monthly_budget > 0:] block: the notice it shows, if any. *)
Definition budget_alert (total_expense monthly_budget : Q) : option notice :=
  if negb (Qle_bool monthly_budget 0) then
    let usage := budget_usage total_expense monthly_budget in
    Some (if Qle_bool 100 usage then budget_exceeded
          else if Qle_bool 80 usage then approaching_budget
          else budget_under_control)
  else None.

(** [df["Month"] = df["Date"].dt.to_period("M").astype(str)] *)
Definition with_month (df : frame) : frame :=
  DataFrame (if decide ("Month" ∈ columns df) then columns df
             else columns df ++ ["Month"])
            (map (λ r, match r !! "Date" with
                       | Some (Timestamp ns) => <["Month" := Text (month_key ns)]> r
                       | _ => <["Month" := Text "NaT"]> r
                       end) (rows df)).

(** What one run puts on the page below the filters. *)
Record report := Report {
  total_expense : Q;
  transactions : nat;
  top : cell;
  category_summary : option (list (cell * Q));
  trend : list (cell * Q);
  table : frame;
  export : option frame
}.

Section Dashboard.
Context `{Pandas}.

(** [sorted(values)]: comparing a [str] with a number raises. *)
Definition py_sorted (values : list (option cell)) : script (list (option cell)) :=
  match values with
  | [] => mret []
  | v :: _ =>
    if forallb (λ w, bool_decide (pytype_of w = pytype_of v)) values
    then mret (sorted value_ltb values)
    else raise TypeError
  end.

(** The safety net before aggregation. *)
Definition clean (df : frame) : script frame :=
  df ← coerce_types df;
  mret (dropna ["Date"; "Amount"] df).

(** The coerce-or-drop pass as a function on frames that have both columns. *)
Definition normalize (df : frame) : frame :=
  dropna ["Date"; "Amount"]
    (coerce_column to_numeric "Amount" (coerce_column to_datetime "Date" df)).

(** From [df = st.session_state.df.copy()] to the end of the script. *)
Definition dashboard (monthly_budget : Q) (selected_month : string)
    (selected_category : option cell) : script report :=
  df ← get_session_df;
  (if empty df then display (info "No data available yet.");; st_stop else mret ());;
  df ← clean df;
  let df := with_month df in
  _ ← py_sorted (unique value_eqb (column "Month" df));
  getitem "Category" df;;
  _ ← py_sorted (unique value_eqb (column "Category" df));
  let filtered_df := filter_view selected_month selected_category df in
  let total := total_amount filtered_df in
  top ← (λ w, (top_category filtered_df, w));
  match budget_alert total monthly_budget with
  | Some n => display n
  | None => mret ()
  end;;
  mret (Report total (length (rows filtered_df)) top
          (if empty filtered_df then None else Some (category_breakdown filtered_df))
          (groupby_sum "Date" filtered_df)
          filtered_df
          (if empty filtered_df then None else Some filtered_df)).

(** One run of the script, from the widgets' values. *)
Definition run (monthly_budget : Q) (submitted : option expense_form)
    (uploaded : option frame) (selected_month : string)
    (selected_category : option cell) : script report :=
  init_session;;
  match submitted with Some form => add_expense form | None => mret () end;;
  match uploaded with Some temp_df => upload_csv temp_df | None => mret () end;;
  dashboard monthly_budget selected_month selected_category.

End Dashboard.

(** ** An instance of the text layer, for evaluation

    The data file holds the frame as it is; a date is read in the form
    [YYYY-MM-DD] only, a number as the float64 nearest to an optionally
    signed decimal; sums add from the left, as numpy does for fewer than
    eight values and as [groupby] does when no rounding error is carried from
    one addition to the next (the inputs below have fewer than eight rows and
    groups of whole numbers or of at most two amounts). *)

Definition digit_value (a : ascii) : option Z :=
  let n := Z.of_nat (nat_of_ascii a) in
  if (48 <=? n) && (n <=? 57) then Some (n - 48) else None.

Fixpoint digits_value (acc : Z) (s : string) : option Z :=
  match s with
  | EmptyString => Some acc
  | String a s => d ← digit_value a; digits_value (10 * acc + d) s
  end.

Definition natural_of_text (s : string) : option Z :=
  match s with
  | EmptyString => None
  | _ => digits_value 0 s
  end.

Definition days_in_month (y m : Z) : Z :=
  if m =? 2 then
    if ((y mod 4 =? 0) && negb (y mod 100 =? 0)) || (y mod 400 =? 0) then 29 else 28
  else if (m =? 4) || (m =? 6) || (m =? 9) || (m =? 11) then 30 else 31.

Definition iso_date_of_text (s : string) : option Z :=
  if negb (String.length s =? 10)%nat then None
  else if negb (String.eqb (substring 4 1 s) "-" && String.eqb (substring 7 1 s) "-")
  then None
  else
    y ← natural_of_text (substring 0 4 s);
    m ← natural_of_text (substring 5 2 s);
    d ← natural_of_text (substring 8 2 s);
    if (1 <=? m) && (m <=? 12) && (1 <=? d) && (d <=? days_in_month y m)
    then Some (days_from_civil y m d * ns_per_day)
    else None.

Fixpoint split_at_dot (s : string) : string * option string :=
  match s with
  | EmptyString => (EmptyString, None)
  | String a s' =>
    if Ascii.eqb a "." then (EmptyString, Some s')
    else let '(i, f) := split_at_dot s' in (String a i, f)
  end.

Definition unsigned_decimal_of_text (s : string) : option Q :=
  let '(i, f) := split_at_dot s in
  n ← natural_of_text i;
  match f with
  | None => Some (inject_Z n)
  | Some f =>
    k ← natural_of_text f;
    Some (Qplus (inject_Z n) (Qmake k (Pos.pow 10 (Pos.of_nat (String.length f)))))
  end.

Definition decimal_of_text (s : string) : option Q :=
  match s with
  | String "-" s' => Qopp <$> unsigned_decimal_of_text s'
  | _ => unsigned_decimal_of_text s
  end.

Definition iso_pandas : Pandas := {|
  csv := frame;
  to_csv := id;
  read_csv := id;
  datetime_of_text := iso_date_of_text;
  datetime_of_number := λ q, Some (Qfloor q);
  numeric_of_text := λ s, round64 <$> decimal_of_text s;
  series_sum := fl_sum;
  series_sum_nil := eq_refl;
  group_sum := fl_sum
|}.

(** ** Inputs used to evaluate the script *)

Definition mk_row (l : list (string * cell)) : row := list_to_map l.

(** A session under way: one expense in the ledger and in the file. *)
Definition started_session : @app iso_pandas :=
  let ledger := DataFrame schema
    [mk_row [("Date", Timestamp 1704067200000000000); ("Category", Text "Bills");
             ("Amount", Number 40); ("Description", Text "rent")]] in
  App (Some ledger) (Some (@to_csv iso_pandas ledger)) (Some (DataFrame schema [])) [].

(** A file without an Amount column. *)
Definition no_amount_file : frame :=
  DataFrame ["Date"; "Category"]
    [mk_row [("Date", Text "2024-01-01"); ("Category", Text "Food")]].

(** [Date,Category,Amount\n2024-01-01,Food,100\nnot-a-date,Food,50] as
    [pd.read_csv] returns it: text in Date and Category, numbers in Amount. *)
Definition first_row : row :=
  mk_row [("Date", Text "2024-01-01"); ("Category", Text "Food");
          ("Amount", Number 100)].

Definition second_row : row :=
  mk_row [("Date", Text "not-a-date"); ("Category", Text "Food");
          ("Amount", Number 50)].

Definition two_row_file : frame :=
  DataFrame ["Date"; "Category"; "Amount"] [first_row; second_row].

(** A file in which no row has both a date and an amount that parse. *)
Definition unparsable_file : frame :=
  DataFrame ["Date"; "Category"; "Amount"]
    [mk_row [("Date", Text "soon"); ("Category", Text "Food");
             ("Amount", Text "5")];
     mk_row [("Date", Text "2024-01-01"); ("Category", Text "Food");
             ("Amount", Text "a lot")];
     mk_row [("Category", Text "Food")]].

(** A file with a column outside the schema. *)
Definition payee_row : row :=
  mk_row [("Date", Text "2024-03-09"); ("Payee", Text "Acme");
          ("Category", Text "Bills"); ("Amount", Number 12.5)].

Definition payee_file : frame :=
  DataFrame ["Date"; "Payee"; "Category"; "Amount"] [payee_row].

Definition lunch : expense_form :=
  ExpenseForm (Date 2024 3 5) Food 12.5 "lunch".

(** A data file left by an earlier session or edited by hand, with a date
    that does not parse. *)
Definition stale_file : frame :=
  DataFrame schema
    [mk_row [("Date", Text "2024-01-01"); ("Category", Text "Food");
             ("Amount", Number 100); ("Description", Text "ok")];
     mk_row [("Date", Text "not-a-date"); ("Category", Text "Food");
             ("Amount", Number 50); ("Description", Text "broken")]].

Definition fresh_session : @app iso_pandas :=
  App None (Some (@to_csv iso_pandas stale_file)) None [].

(** What a run leaves alone when it only reads: the session table, the data
    file and the memo of [load_data]. *)
Definition stores `{Pandas} (w : app) : option frame * option csv * option frame :=
  (session_df w, data_file w, load_cache w).

Definition read_only `{Pandas} {A} (m : script A) : Prop :=
  ∀ w, stores (m w).2 = stores w.

(** No two keys of the list are equal for Python's [==]. *)
Fixpoint distinct_keys (l : list cell) : Prop :=
  match l with
  | [] => True
  | k :: l => Forall (λ k', cell_eqb k k' = false) l ∧ distinct_keys l
  end.

(** The first run ever: no session table, no data file, nothing memoized. *)
Definition first_run : @app iso_pandas := App None None None [].


(** [Date,Category,Amount\n2024-01-01,,100]: no row has a category. *)
Definition no_category_file : frame :=
  DataFrame ["Date"; "Category"; "Amount"]
    [mk_row [("Date", Text "2024-01-01"); ("Amount", Number 100)]].

(** Four expenses in three categories, two of them tied at 100. *)
Definition tied_table : frame :=
  DataFrame ["Date"; "Category"; "Amount"; "Description"; "Month"]
    [mk_row [("Date", Timestamp 1704067200000000000); ("Category", Text "Travel");
             ("Amount", Number 100); ("Description", Text ""); ("Month", Text "2024-01")];
     mk_row [("Date", Timestamp 1706832000000000000); ("Category", Text "Food");
             ("Amount", Number 60); ("Description", Text ""); ("Month", Text "2024-02")];
     mk_row [("Date", Timestamp 1706918400000000000); ("Category", Text "Food");
             ("Amount", Number 40); ("Description", Text ""); ("Month", Text "2024-02")];
     mk_row [("Date", Timestamp 1706918400000000000); ("Category", Text "Bills");
             ("Amount", Number 99); ("Description", Text ""); ("Month", Text "2024-02")]].

(** ** The import, by the words of the specification *)

Definition expense_added : notice := success "✅ Expense Added".

Definition import_ok : notice := success "✅ CSV Uploaded & Dashboard Updated".
Definition import_failed : notice :=
  error "CSV must contain Date, Category, Amount columns".

Section ImportRow.
Context `{Pandas}.

(** What the import keeps of one row of the file, by the words of the
    specification: nothing when its Date or its Amount does not parse, else
    the row with both values in their types, and with an empty Description
    when the file has no such column. *)
Definition import_row (synthesize : bool) (r : row) : option row :=
  d ← r !! "Date" ≫= to_datetime;
  a ← r !! "Amount" ≫= to_numeric;
  Some (<["Amount" := a]>
       (<["Date" := d]>
       (if synthesize then <["Description" := Text ""]> r else r))).

Definition lacks_description (df : frame) : bool :=
  bool_decide ("Description" ∉ columns df).

(** The frame the [if uploaded:] block stores, as the code computes it. *)
Definition imported (temp_df : frame) : frame :=
  let temp_df :=
    if decide ("Description" ∈ columns temp_df) then temp_df
    else assign_scalar "Description" (Text "") temp_df in
  dropna ["Date"; "Amount"]
    (coerce_column to_numeric "Amount" (coerce_column to_datetime "Date" temp_df)).

End ImportRow.

(** ** Further notions about the state of a run *)

Definition no_data : notice := info "No data available yet.".

Section StateNotions.
Context `{Pandas}.

(** The data file holds what the session table holds. *)
Definition synced (w : app) : Prop :=
  ∃ df, session_df w = Some df ∧ data_file w = Some (to_csv df).

(** A new browser session on the running server: it has no session table
    yet and an empty page; the data file and the memo of [st.cache_data]
    stay. *)
Definition new_session (w : app) : app :=
  App None (data_file w) (load_cache w) [].

(** The state in which the [if uploaded:] block starts. *)
Definition after_form (form : option expense_form) (w : app) : app :=
  match form with
  | Some R => (add_expense R w).2
  | None => w
  end.

Definition upload_block (up : option frame) : script unit :=
  match up with
  | Some temp_df => upload_csv temp_df
  | None => mret ()
  end.

End StateNotions.

(** A row with a timestamp in Date and a number in Amount. *)
Definition typed_row (r : row) : Prop :=
  (∃ ns, r !! "Date" = Some (Timestamp ns)) ∧
  (∃ q, r !! "Amount" = Some (Number q)).

(** A data file without a Date column. *)
Definition undated_file : frame :=
  DataFrame ["Category"; "Amount"]
    [mk_row [("Category", Text "Food"); ("Amount", Number 100)]].

(** A table in which one record has a text category and one has none. *)
Definition food_record : row :=
  mk_row [("Date", Timestamp 1704067200000000000); ("Category", Text "Food");
          ("Amount", Number 100); ("Description", Text "")].

Definition uncategorised_record : row :=
  mk_row [("Date", Timestamp 1704153600000000000);
          ("Amount", Number 50); ("Description", Text "")].

Definition mixed_table : frame :=
  DataFrame schema [food_record; uncategorised_record].

(** A session whose table is [mixed_table]. *)
Definition mixed_session : @app iso_pandas :=
  App (Some mixed_table) (Some (@to_csv iso_pandas mixed_table)) None [].


(** * Properties *)

Ltac by_evaluation := apply (bool_decide_unpack _); vm_compute; exact I.

(** ** Bulk import *)

Section ImportFacts.
Context `{Pandas}.

Lemma coerce_cell (f : cell → option cell) (c : string) (r : row) :
  partial_alter (λ o, o ≫= f) c r =
  match r !! c ≫= f with
  | Some v => <[c := v]> r
  | None => delete c r
  end.
Proof.
  apply map_eq; intros k. rewrite lookup_partial_alter.
  destruct (r !! c ≫= f) eqn:E; case_decide; subst;
    rewrite ?lookup_insert_eq, ?lookup_delete_eq,
            ?lookup_insert_ne, ?lookup_delete_ne by done; done.
Qed.

Lemma getitem_present (c : string) (df : frame) (w : app) :
  c ∈ columns df → getitem c df w = (Done (), w).
Proof. intros Hc. unfold getitem. by rewrite decide_True. Qed.

Lemma getitem_absent (c : string) (df : frame) (w : app) :
  c ∉ columns df → getitem c df w = (Raised (KeyError c), w).
Proof. intros Hc. unfold getitem. by rewrite decide_False. Qed.

Lemma coerce_types_present (df : frame) (w : app) :
  "Date" ∈ columns df → "Amount" ∈ columns df →
  coerce_types df w =
  (Done (coerce_column to_numeric "Amount" (coerce_column to_datetime "Date" df)), w).
Proof.
  intros Hd Ha. unfold coerce_types, mbind, script_bind.
  rewrite getitem_present by done. by rewrite getitem_present.
Qed.

(** A row survives the coercions and [dropna] exactly as [import_row] says. *)
Lemma dropna_coerced_rows (synthesize : bool) (l : list row) :
  filter (notna ["Date"; "Amount"])
    (map (partial_alter (λ o, o ≫= to_numeric) "Amount")
      (map (partial_alter (λ o, o ≫= to_datetime) "Date")
        (if synthesize then map (insert "Description" (Text "")) l else l)))
  = omap (import_row synthesize) l.
Proof.
  assert (Hrow : ∀ r0 : row,
    let r1 := partial_alter (λ o, o ≫= to_numeric) "Amount"
                (partial_alter (λ o, o ≫= to_datetime) "Date" r0) in
    match r0 !! "Date" ≫= to_datetime, r0 !! "Amount" ≫= to_numeric with
    | Some d, Some a => notna ["Date"; "Amount"] r1 ∧
                        r1 = <["Amount" := a]> (<["Date" := d]> r0)
    | _, _ => ¬ notna ["Date"; "Amount"] r1
    end).
  { intros r0 r1. subst r1. rewrite !coerce_cell.
    assert (Hne : "Date" ≠ "Amount") by done.
    destruct (r0 !! "Date" ≫= to_datetime) as [d|] eqn:Ed.
    - rewrite lookup_insert_ne by done.
      destruct (r0 !! "Amount" ≫= to_numeric) as [a|] eqn:Ea.
      + split; [|done]. repeat constructor.
        * rewrite lookup_insert_ne, lookup_insert_eq by done. eauto.
        * rewrite lookup_insert_eq. eauto.
      + intros Hn. apply Forall_cons in Hn as [_ Hn].
        apply Forall_cons in Hn as [Hn _].
        rewrite lookup_delete_eq in Hn. by destruct Hn.
    - rewrite lookup_delete_ne by done.
      assert (∀ m : row, m !! "Date" = None → ¬ notna ["Date"; "Amount"] m) as Hno.
      { intros m Hm Hn. apply Forall_cons in Hn as [Hn _].
        rewrite Hm in Hn. by destruct Hn. }
      destruct (r0 !! "Amount" ≫= to_numeric); apply Hno.
      + by rewrite lookup_insert_ne, lookup_delete_eq.
      + by rewrite lookup_delete_ne, lookup_delete_eq. }
  induction l as [|r l IH]; [by destruct synthesize|].
  assert (∀ r0, r0 !! "Date" = r !! "Date" → r0 !! "Amount" = r !! "Amount" →
    (if synthesize then <["Description" := Text ""]> r else r) = r0 →
    filter (notna ["Date"; "Amount"])
      (partial_alter (λ o, o ≫= to_numeric) "Amount"
         (partial_alter (λ o, o ≫= to_datetime) "Date" r0) ::
       map (partial_alter (λ o, o ≫= to_numeric) "Amount")
         (map (partial_alter (λ o, o ≫= to_datetime) "Date")
            (if synthesize then map (insert "Description" (Text "")) l else l)))
    = omap (import_row synthesize) (r :: l)) as Hstep.
  { intros r0 Hd Ha Hr0. specialize (Hrow r0). simpl in Hrow.
    rewrite Hd, Ha in Hrow. cbn [omap list_omap]. unfold import_row at 1.
    destruct (r !! "Date" ≫= to_datetime) as [d|]; simpl.
    - destruct (r !! "Amount" ≫= to_numeric) as [a|]; simpl.
      + destruct Hrow as [Hn Hr]. rewrite filter_cons_True by done.
        rewrite IH, Hr, Hr0. done.
      + rewrite filter_cons_False by done. by rewrite IH.
    - rewrite filter_cons_False by done. by rewrite IH. }
  destruct synthesize; simpl map; apply Hstep; try done.
  - by rewrite lookup_insert_ne.
  - by rewrite lookup_insert_ne.
Qed.

Lemma imported_rows (temp_df : frame) :
  rows (imported temp_df) =
  omap (import_row (lacks_description temp_df)) (rows temp_df).
Proof.
  unfold imported, lacks_description.
  rewrite <- dropna_coerced_rows.
  destruct (decide ("Description" ∈ columns temp_df)) as [Hd|Hd].
  - by rewrite bool_decide_eq_false_2 by (by intros ?).
  - by rewrite bool_decide_eq_true_2.
Qed.

Lemma imported_columns (temp_df : frame) :
  columns (imported temp_df) =
  if lacks_description temp_df then columns temp_df ++ ["Description"]
  else columns temp_df.
Proof.
  unfold imported, lacks_description.
  destruct (decide ("Description" ∈ columns temp_df)) as [Hd|Hd]; simpl.
  - by rewrite bool_decide_eq_false_2 by (by intros ?).
  - rewrite bool_decide_eq_true_2 by done. by rewrite decide_False.
Qed.

(** With the three required columns the block runs to its end and stores
    [imported temp_df], in the session and in the file. *)
Lemma upload_csv_accepts (temp_df : frame) (w : app) :
  required_cols ⊆ columns temp_df →
  upload_csv temp_df w =
  (Done (), App (Some (imported temp_df)) (Some (to_csv (imported temp_df)))
                (load_cache w) (screen w ++ [import_ok])).
Proof.
  intros Hreq. unfold upload_csv, mbind, script_bind.
  rewrite decide_True by done. simpl.
  assert ("Date" ∈ columns temp_df ∧ "Amount" ∈ columns temp_df) as [Hd Ha].
  { split; apply Hreq; set_solver. }
  unfold imported.
  destruct (decide ("Description" ∈ columns temp_df)) as [Hdesc|Hdesc].
  - by rewrite coerce_types_present.
  - rewrite coerce_types_present; [done| |]; simpl;
      rewrite decide_False by done; set_solver.
Qed.

Lemma upload_csv_rejects (temp_df : frame) (w : app) :
  ¬ required_cols ⊆ columns temp_df →
  upload_csv temp_df w =
  (Stopped, App (session_df w) (data_file w) (load_cache w)
                (screen w ++ [import_failed])).
Proof.
  intros Hreq. unfold upload_csv, mbind, script_bind.
  by rewrite decide_False.
Qed.

End ImportFacts.

(** C1. A bulk-import file that lacks one of the required columns Date,
    Category, Amount is rejected as a whole: the run stops on the failure
    notice, and the session ledger and the data file are what they were
    before the import. *)
Theorem import_missing_column_rejected `{Pandas}
    (temp_df : frame) (w : app) (c : string) :
  c ∈ required_cols → c ∉ columns temp_df →
  ∃ w', upload_csv temp_df w = (Stopped, w') ∧
        screen w' = screen w ++ [import_failed] ∧
        session_df w' = session_df w ∧
        data_file w' = data_file w.
Proof.
  intros Hc Hmiss. eexists. split.
  - apply upload_csv_rejects. intros Hsub. by apply Hmiss, Hsub.
  - done.
Qed.

Lemma import_missing_column_rejected_witness :
  "Amount" ∈ required_cols ∧ ("Amount" ∉ columns no_amount_file) ∧
  ∃ w', @upload_csv iso_pandas no_amount_file started_session = (Stopped, w') ∧
        screen w' = screen started_session ++ [import_failed] ∧
        session_df w' = session_df started_session ∧
        data_file w' = data_file started_session.
Proof.
  split; [by_evaluation|]. split; [by_evaluation|].
  apply (import_missing_column_rejected (H := iso_pandas)
           no_amount_file started_session "Amount"); by_evaluation.
Defined.

Lemma import_row_None `{Pandas} (b : bool) (r : row) :
  import_row b r = None ↔
  r !! "Date" ≫= to_datetime = None ∨ r !! "Amount" ≫= to_numeric = None.
Proof.
  unfold import_row.
  destruct (r !! "Date" ≫= to_datetime), (r !! "Amount" ≫= to_numeric);
    simpl; split; (done || (by intros [?|?]) || eauto).
Qed.

(** C2. When the file has the required columns, every row whose Date or
    Amount does not parse is dropped and the other rows, in their types,
    become the whole ledger, whatever it held before.  The file of the two
    rows (2024-01-01, Food, 100) and (not-a-date, Food, 50) leaves a ledger of
    one record, the first row. *)
Theorem import_keeps_parsed_rows `{Pandas} :
  (∀ (temp_df : frame) (w : app),
     required_cols ⊆ columns temp_df →
     ∃ ledger,
       upload_csv temp_df w =
         (Done (), App (Some ledger) (Some (to_csv ledger)) (load_cache w)
                       (screen w ++ [import_ok])) ∧
       rows ledger = omap (import_row (lacks_description temp_df)) (rows temp_df) ∧
       ∀ r, import_row (lacks_description temp_df) r = None ↔
            r !! "Date" ≫= to_datetime = None ∨
            r !! "Amount" ≫= to_numeric = None) ∧
  (∀ (w : app) (ts : Z),
     datetime_of_text "2024-01-01" = Some ts →
     datetime_of_text "not-a-date" = None →
     session_df (upload_csv two_row_file w).2 =
       Some (DataFrame schema
               [mk_row [("Date", Timestamp ts); ("Category", Text "Food");
                        ("Amount", Number 100); ("Description", Text "")]])).
Proof.
  split.
  - intros temp_df w Hreq. exists (imported temp_df). split; [|split].
    + by apply upload_csv_accepts.
    + apply imported_rows.
    + intros r. apply import_row_None.
  - intros w ts Hgood Hbad.
    rewrite upload_csv_accepts by (intros c Hc; set_solver).
    simpl. f_equal.
    pose proof (imported_rows two_row_file) as Hr.
    pose proof (imported_columns two_row_file) as Hc.
    destruct (imported two_row_file) as [cols rs].
    change (columns {| columns := cols; rows := rs |}) with cols in Hc.
    change (rows {| columns := cols; rows := rs |}) with rs in Hr.
    subst cols rs. f_equal.
    change (lacks_description two_row_file) with true.
    change (rows two_row_file) with [first_row; second_row].
    assert (import_row true second_row = None) as Hsnd.
    { apply import_row_None. left.
      change (second_row !! "Date") with (Some (Text "not-a-date")).
      simpl. by rewrite Hbad. }
    cbn [omap list_omap]. rewrite Hsnd.
    unfold import_row.
    change (first_row !! "Date") with (Some (Text "2024-01-01")).
    change (first_row !! "Amount") with (Some (Number 100)).
    simpl. rewrite Hgood. reflexivity.
Qed.

Lemma import_keeps_parsed_rows_witness :
  required_cols ⊆ columns two_row_file ∧
  @datetime_of_text iso_pandas "2024-01-01" = Some 1704067200000000000 ∧
  @datetime_of_text iso_pandas "not-a-date" = None ∧
  (∃ ledger,
     @upload_csv iso_pandas two_row_file started_session =
       (Done (), App (Some ledger) (Some (to_csv ledger))
                     (load_cache started_session)
                     (screen started_session ++ [import_ok])) ∧
     rows ledger = omap (@import_row iso_pandas (lacks_description two_row_file))
                        (rows two_row_file) ∧
     ∀ r, @import_row iso_pandas (lacks_description two_row_file) r = None ↔
          r !! "Date" ≫= @to_datetime iso_pandas = None ∨
          r !! "Amount" ≫= @to_numeric iso_pandas = None) ∧
  session_df (@upload_csv iso_pandas two_row_file started_session).2 =
    Some (DataFrame schema
            [mk_row [("Date", Timestamp 1704067200000000000);
                     ("Category", Text "Food");
                     ("Amount", Number 100); ("Description", Text "")]]).
Proof.
  assert (required_cols ⊆ columns two_row_file) as Hreq by set_solver.
  split; [exact Hreq|]. split; [reflexivity|]. split; [reflexivity|]. split.
  - exact (proj1 (import_keeps_parsed_rows (H := iso_pandas))
             two_row_file started_session Hreq).
  - exact (proj2 (import_keeps_parsed_rows (H := iso_pandas))
             started_session 1704067200000000000 eq_refl eq_refl).
Defined.

(** C3. When the file has the required columns and no row has both a Date and
    an Amount that parse, the import still runs to its success notice and the
    ledger becomes a table without rows, in the session and in the data file,
    whatever the ledger held before. *)
Theorem import_without_valid_rows_empties_ledger `{Pandas}
    (temp_df : frame) (w : app) :
  required_cols ⊆ columns temp_df →
  (∀ r, r ∈ rows temp_df →
        r !! "Date" ≫= to_datetime = None ∨ r !! "Amount" ≫= to_numeric = None) →
  ∃ cols,
    upload_csv temp_df w =
      (Done (), App (Some (DataFrame cols [])) (Some (to_csv (DataFrame cols [])))
                    (load_cache w) (screen w ++ [import_ok])) ∧
    (columns temp_df ⊆ cols).
Proof.
  intros Hreq Hbad. exists (columns (imported temp_df)).
  rewrite upload_csv_accepts by done.
  assert (rows (imported temp_df) = []) as Hrows.
  { rewrite imported_rows.
    induction (rows temp_df) as [|r l IH]; [done|].
    cbn [omap list_omap].
    rewrite (proj2 (import_row_None _ r)) by (apply Hbad; left).
    apply IH. intros r' Hr'. apply Hbad. by right. }
  split.
  - destruct (imported temp_df) as [cols rs]. simpl in *. by subst rs.
  - rewrite imported_columns. destruct (lacks_description temp_df); set_solver.
Qed.

Lemma import_without_valid_rows_empties_ledger_witness :
  required_cols ⊆ columns unparsable_file ∧
  (∀ r, r ∈ rows unparsable_file →
        r !! "Date" ≫= @to_datetime iso_pandas = None ∨
        r !! "Amount" ≫= @to_numeric iso_pandas = None) ∧
  (∃ df, session_df started_session = Some df ∧ rows df ≠ []) ∧
  ∃ cols,
    @upload_csv iso_pandas unparsable_file started_session =
      (Done (), App (Some (DataFrame cols [])) (Some (to_csv (DataFrame cols [])))
                    (load_cache started_session)
                    (screen started_session ++ [import_ok])) ∧
    (columns unparsable_file ⊆ cols).
Proof.
  assert (required_cols ⊆ columns unparsable_file) as Hreq by set_solver.
  assert (∀ r, r ∈ rows unparsable_file →
            r !! "Date" ≫= @to_datetime iso_pandas = None ∨
            r !! "Amount" ≫= @to_numeric iso_pandas = None) as Hbad.
  { intros r Hr. unfold unparsable_file, rows in Hr.
    apply elem_of_cons in Hr as [->|Hr]; [left; reflexivity|].
    apply elem_of_cons in Hr as [->|Hr]; [right; reflexivity|].
    apply elem_of_cons in Hr as [->|Hr]; [left; reflexivity|].
    by apply elem_of_nil in Hr. }
  split; [exact Hreq|]. split; [exact Hbad|]. split.
  - eexists. split; [reflexivity|]. discriminate.
  - exact (import_without_valid_rows_empties_ledger (H := iso_pandas)
             unparsable_file started_session Hreq Hbad).
Defined.

(** C10. A file with the required columns and further columns outside the
    schema Date, Category, Amount, Description is imported: every column of
    the file is a column of the new ledger, and each kept row has, in every
    column other than Date, Amount and Description, the value the file gave
    it; the data file is written from that same ledger. *)
Theorem import_retains_extra_columns `{Pandas} (temp_df : frame) (w : app) :
  required_cols ⊆ columns temp_df →
  ∃ ledger,
    upload_csv temp_df w =
      (Done (), App (Some ledger) (Some (to_csv ledger)) (load_cache w)
                    (screen w ++ [import_ok])) ∧
    (columns temp_df ⊆ columns ledger) ∧
    rows ledger = omap (import_row (lacks_description temp_df)) (rows temp_df) ∧
    ∀ (r r' : row) (c : string),
      import_row (lacks_description temp_df) r = Some r' →
      c ∉ ["Date"; "Amount"; "Description"] →
      r' !! c = r !! c.
Proof.
  intros Hreq. exists (imported temp_df). split; [|split; [|split]].
  - by apply upload_csv_accepts.
  - rewrite imported_columns. destruct (lacks_description temp_df); set_solver.
  - apply imported_rows.
  - intros r r' c Hrow Hc. unfold import_row in Hrow.
    destruct (r !! "Date" ≫= to_datetime) as [d|]; [|done].
    destruct (r !! "Amount" ≫= to_numeric) as [a|]; [|done].
    simpl in Hrow. injection Hrow as <-.
    assert (c ≠ "Date" ∧ c ≠ "Amount" ∧ c ≠ "Description") as (?&?&?)
      by (split_and!; intros ->; apply Hc; rewrite !elem_of_cons; auto).
    rewrite !lookup_insert_ne by done.
    destruct (lacks_description temp_df); [|done].
    by rewrite lookup_insert_ne.
Qed.

Lemma import_retains_extra_columns_witness :
  required_cols ⊆ columns payee_file ∧
  ("Payee" ∈ columns payee_file) ∧ ("Payee" ∉ schema) ∧
  ∃ ledger,
    @upload_csv iso_pandas payee_file started_session =
      (Done (), App (Some ledger) (Some (to_csv ledger))
                    (load_cache started_session)
                    (screen started_session ++ [import_ok])) ∧
    (columns payee_file ⊆ columns ledger) ∧
    rows ledger = omap (@import_row iso_pandas (lacks_description payee_file))
                       (rows payee_file) ∧
    ∀ (r r' : row) (c : string),
      @import_row iso_pandas (lacks_description payee_file) r = Some r' →
      c ∉ ["Date"; "Amount"; "Description"] →
      r' !! c = r !! c.
Proof.
  assert (required_cols ⊆ columns payee_file) as Hreq.
  { intros c. unfold required_cols, payee_file, columns.
    rewrite !elem_of_cons. tauto. }
  split; [exact Hreq|]. split; [by_evaluation|]. split; [by_evaluation|].
  exact (import_retains_extra_columns (H := iso_pandas)
           payee_file started_session Hreq).
Defined.

(** ** Manual entry *)

Section EntryFacts.
Context `{Pandas}.

Lemma add_expense_appends (form : expense_form) (df : frame) (w : app) :
  session_df w = Some df →
  add_expense form w =
  (Done (), App (Some (concat df (DataFrame schema [new_row form])))
                (Some (to_csv (concat df (DataFrame schema [new_row form]))))
                (load_cache w) (screen w ++ [expense_added])).
Proof.
  intros Hdf. unfold add_expense, mbind, script_bind, get_session_df.
  rewrite Hdf. done.
Qed.

Lemma new_row_typed (form : expense_form) :
  partial_alter (λ o, o ≫= to_numeric) "Amount"
    (partial_alter (λ o, o ≫= to_datetime) "Date" (new_row form)) = new_row form.
Proof.
  rewrite !coerce_cell. unfold new_row.
  rewrite lookup_insert_eq. simpl.
  rewrite insert_insert_eq.
  rewrite lookup_insert_ne, lookup_insert_ne, lookup_insert_eq by done. simpl.
  apply insert_id.
  by rewrite lookup_insert_ne, lookup_insert_ne, lookup_insert_eq.
Qed.

Lemma new_row_notna (form : expense_form) :
  notna ["Date"; "Amount"] (new_row form).
Proof.
  unfold new_row. repeat constructor.
  - rewrite lookup_insert_eq. eauto.
  - rewrite lookup_insert_ne, lookup_insert_ne, lookup_insert_eq by done. eauto.
Qed.

Lemma schema_in_concat (df : frame) (l : list row) :
  schema ⊆ columns (concat df (DataFrame schema l)).
Proof.
  intros c Hc. simpl. apply elem_of_app.
  destruct (decide (c ∈ columns df)); [by left|right].
  by apply list_elem_of_filter.
Qed.

End EntryFacts.

Lemma init_session_sets_df `{Pandas} (w w' : app) :
  init_session w = (Done (), w') → is_Some (session_df w').
Proof.
  unfold init_session. destruct (session_df w) as [df|] eqn:Hdf.
  - intros [= <-]. by rewrite Hdf.
  - unfold mbind, script_bind.
    destruct (load_data w) as [[df| |e] w1]; [|done..].
    intros [= <-]. by eexists.
Qed.

(** C4. Once the session has its table (every run that gets past its first
    lines has one), manual entry of a record R puts R last in the session
    table and rewrites the data file from the whole table.  The next run
    finds the session table set and reads nothing: the state is untouched and
    the table it works on ends with R, date at midnight of the chosen day and
    amount as the number entered, also after the cleaning pass. *)
Theorem append_persists_and_reloads `{Pandas} :
  (∀ w w' : app, init_session w = (Done (), w') → is_Some (session_df w')) ∧
  ∀ (w : app) (df : frame) (R : expense_form),
    session_df w = Some df →
    ∃ (w' : app) (ledger : frame),
      add_expense R w = (Done (), w') ∧
      session_df w' = Some ledger ∧
      data_file w' = Some (to_csv ledger) ∧
      rows ledger = rows df ++ [new_row R] ∧
      new_row R !! "Date" = Some (Timestamp (timestamp_of_date (expense_date R))) ∧
      new_row R !! "Category" = Some (Text (category_name (form_category R))) ∧
      new_row R !! "Amount" = Some (Number (amount R)) ∧
      new_row R !! "Description" = Some (Text (description R)) ∧
      init_session w' = (Done (), w') ∧
      get_session_df w' = (Done ledger, w') ∧
      ∃ cleaned, clean ledger w' = (Done cleaned, w') ∧
                 last (rows cleaned) = Some (new_row R).
Proof.
  split; [apply init_session_sets_df|].
  intros w df R Hdf.
  eexists _, (concat df (DataFrame schema [new_row R])).
  split; [by apply add_expense_appends|].
  split; [done|]. split; [done|]. split; [done|].
  split; [by unfold new_row; simplify_map_eq|].
  split; [by unfold new_row; simplify_map_eq|].
  split; [by unfold new_row; simplify_map_eq|].
  split; [by unfold new_row; simplify_map_eq|].
  split; [done|]. split; [done|].
  eexists. split.
  - unfold clean, mbind, script_bind.
    rewrite coerce_types_present; [done| |];
      apply schema_in_concat; unfold schema; rewrite !elem_of_cons; auto.
  - simpl. rewrite !map_app, filter_app. simpl.
    rewrite new_row_typed.
    rewrite (filter_cons_True _ (new_row R)) by apply new_row_notna.
    rewrite filter_nil. apply last_snoc.
Qed.

Lemma append_persists_and_reloads_witness :
  ∃ df, session_df started_session = Some df ∧
  ∃ (w' : @app iso_pandas) (ledger : frame),
    add_expense lunch started_session = (Done (), w') ∧
    session_df w' = Some ledger ∧
    data_file w' = Some (to_csv ledger) ∧
    rows ledger = rows df ++ [new_row lunch] ∧
    new_row lunch !! "Date" =
      Some (Timestamp (timestamp_of_date (expense_date lunch))) ∧
    new_row lunch !! "Category" = Some (Text (category_name (form_category lunch))) ∧
    new_row lunch !! "Amount" = Some (Number (amount lunch)) ∧
    new_row lunch !! "Description" = Some (Text (description lunch)) ∧
    init_session w' = (Done (), w') ∧
    get_session_df w' = (Done ledger, w') ∧
    ∃ cleaned, clean ledger w' = (Done cleaned, w') ∧
               last (rows cleaned) = Some (new_row lunch).
Proof.
  eexists. split; [reflexivity|].
  exact (proj2 (append_persists_and_reloads (H := iso_pandas))
           started_session _ lunch eq_refl).
Defined.

(** ** Budget alert *)

(** At the boundary the float64 quotient decides, not the exact one: the
    float just below 0.8 (0.7999999999999999) is less than 80% of a budget of
    1, the usage computed from it is 80, and the notice is "approaching". *)
Lemma budget_usage_rounds :
  let t := round64 (7999999999999999 # 10000000000000000) in
  (t * 100 < 80 * 1)%Q ∧
  (budget_usage t 1 == 80)%Q ∧
  budget_alert t 1 = Some approaching_budget.
Proof. by vm_compute. Qed.

(** C5. No alert is computed for a budget that is not positive.  For a
    positive budget the usage is total / budget * 100 as float64 computes
    it (the quotient rounded, then the product rounded), and the notice is
    "exceeded" from 100 on, "approaching" from 80 up to 100, "under control"
    below 80; usage 80 (800 of 1000) is approaching, usage 100 (1000 of 1000)
    is exceeded. *)
Theorem budget_bands (t b : Q) :
  ((b <= 0)%Q → budget_alert t b = None) ∧
  ((0 < b)%Q →
     budget_usage t b = round64 (round64 (t / b) * 100) ∧
     ((100 <= budget_usage t b)%Q → budget_alert t b = Some budget_exceeded) ∧
     ((80 <= budget_usage t b)%Q ∧ (budget_usage t b < 100)%Q →
        budget_alert t b = Some approaching_budget) ∧
     ((budget_usage t b < 80)%Q → budget_alert t b = Some budget_under_control)) ∧
  (budget_usage 800 1000 == 80)%Q ∧
  budget_alert 800 1000 = Some approaching_budget ∧
  (budget_usage 1000 1000 == 100)%Q ∧
  budget_alert 1000 1000 = Some budget_exceeded.
Proof.
  split; [|split; [|by repeat split]].
  - intros Hb. unfold budget_alert.
    by rewrite (proj2 (Qle_bool_iff b 0)).
  - intros Hb. unfold budget_alert.
    assert (Qle_bool b 0 = false) as ->.
    { apply not_true_is_false. rewrite Qle_bool_iff. by apply Qlt_not_le. }
    simpl. split; [reflexivity|]. split; [|split].
    + intros Hu. by rewrite (proj2 (Qle_bool_iff _ _) Hu).
    + intros [Hlo Hhi].
      assert (Qle_bool 100 (budget_usage t b) = false) as ->.
      { apply not_true_is_false. rewrite Qle_bool_iff. by apply Qlt_not_le. }
      by rewrite (proj2 (Qle_bool_iff _ _) Hlo).
    + intros Hu.
      assert (Qle_bool 100 (budget_usage t b) = false) as ->.
      { apply not_true_is_false. rewrite Qle_bool_iff. apply Qlt_not_le.
        eapply Qlt_trans; [exact Hu|done]. }
      assert (Qle_bool 80 (budget_usage t b) = false) as ->.
      { apply not_true_is_false. rewrite Qle_bool_iff. by apply Qlt_not_le. }
      done.
Qed.

Lemma budget_bands_witness :
  (0 < 1000)%Q ∧ (budget_usage 500 1000 < 80)%Q ∧
  budget_alert 500 1000 = Some budget_under_control ∧
  (0 <= 0)%Q ∧ budget_alert 500 0 = None.
Proof.
  assert (0 < 1000)%Q as Hpos by done.
  assert (budget_usage 500 1000 < 80)%Q as Hlow by done.
  assert (0 <= 0)%Q as Hzero by done.
  split; [exact Hpos|]. split; [exact Hlow|]. split; [|split; [exact Hzero|]].
  - exact (proj2 (proj2 (proj2 (proj1 (proj2 (budget_bands 500 1000)) Hpos))) Hlow).
  - exact (proj1 (budget_bands 500 0) Hzero).
Defined.

(** ** Filtering *)

Section ReadOnly.
Context `{Pandas}.

Lemma read_only_bind {A B} (m : script A) (k : A → script B) :
  read_only m → (∀ a, read_only (k a)) → read_only (m ≫= k).
Proof.
  intros Hm Hk w. unfold mbind, script_bind.
  specialize (Hm w). destruct (m w) as [[a| |e] w1]; simpl in *; [|done..].
  by rewrite Hk.
Qed.

Lemma read_only_ret {A} (a : A) : read_only (mret a : script A).
Proof. done. Qed.

Lemma read_only_outcome {A} (o : outcome A) : read_only (λ w, (o, w)).
Proof. done. Qed.

Lemma read_only_display (n : notice) : read_only (display n).
Proof. done. Qed.

Lemma read_only_get_session_df : read_only get_session_df.
Proof. intros w. unfold get_session_df. by destruct (session_df w). Qed.

Lemma read_only_getitem (c : string) (df : frame) : read_only (getitem c df).
Proof. intros w. unfold getitem. by case_decide. Qed.

Lemma read_only_py_sorted (l : list (option cell)) : read_only (py_sorted l).
Proof. intros w. unfold py_sorted. destruct l; [done|]. by case_match. Qed.

Lemma read_only_clean (df : frame) : read_only (clean df).
Proof.
  unfold clean, coerce_types.
  repeat (apply read_only_bind; [|intros ?]);
    auto using read_only_getitem, read_only_ret.
Qed.

Lemma read_only_dashboard (budget : Q) (m : string) (c : option cell) :
  read_only (dashboard budget m c).
Proof.
  unfold dashboard.
  apply read_only_bind; [apply read_only_get_session_df|intros df].
  apply read_only_bind.
  { destruct (empty df); [|apply read_only_ret].
    apply read_only_bind; [apply read_only_display|done]. }
  intros _. apply read_only_bind; [apply read_only_clean|intros df'].
  apply read_only_bind; [apply read_only_py_sorted|intros _].
  apply read_only_bind; [apply read_only_getitem|intros _].
  apply read_only_bind; [apply read_only_py_sorted|intros _].
  apply read_only_bind; [apply read_only_outcome|intros top].
  apply read_only_bind; [|intros _; apply read_only_ret].
  destruct (budget_alert _ _); [apply read_only_display|apply read_only_ret].
Qed.

End ReadOnly.

(** C8. Filtering by month with the category left at "All" and then by
    category with the month left at "All" gives the table that filtering by
    both at once gives.  The part of a run that filters and aggregates leaves
    the session table, the data file and the load memo as they were. *)
Theorem filter_view_composes `{Pandas} :
  (∀ (T : frame) (m : string) (c : option cell),
     filter_view All c (filter_view m (Some (Text All)) T) = filter_view m c T) ∧
  (∀ (budget : Q) (m : string) (c : option cell) (w : app),
     stores (dashboard budget m c w).2 = stores w).
Proof.
  split.
  - intros T m c. unfold filter_view.
    rewrite (decide_False (P := All ≠ All)) by (by intros ?).
    rewrite (decide_False (P := Some (Text All) ≠ Some (Text All))) by (by intros ?).
    done.
  - intros budget m c. apply read_only_dashboard.
Qed.

(** ** The coerce-or-drop pass *)

Section NormalizeFacts.
Context `{Pandas}.

Lemma to_datetime_fixed (c d : cell) :
  to_datetime c = Some d → to_datetime d = Some d.
Proof.
  destruct c as [s|q|ns]; simpl.
  - destruct (datetime_of_text s); [|done]. by intros [= <-].
  - destruct (datetime_of_number q); [|done]. by intros [= <-].
  - by intros [= <-].
Qed.

Lemma to_numeric_fixed (c a : cell) :
  to_numeric c = Some a → to_numeric a = Some a.
Proof.
  destruct c as [s|q|ns]; simpl.
  - destruct (numeric_of_text s); [|done]. by intros [= <-].
  - by intros [= <-].
  - by intros [= <-].
Qed.

Lemma normalize_rows (T : frame) :
  rows (normalize T) = omap (import_row false) (rows T).
Proof. unfold normalize. simpl. apply (dropna_coerced_rows false). Qed.

(** A row that came through the pass comes through it again as it is. *)
Lemma import_row_fixed (r r' : row) :
  import_row false r = Some r' → import_row false r' = Some r'.
Proof.
  unfold import_row.
  destruct (r !! "Date") as [c|] eqn:Ec; [|done]. simpl.
  destruct (to_datetime c) as [d|] eqn:Ed; [|done]. simpl.
  destruct (r !! "Amount") as [c'|] eqn:Ec'; [|done]. simpl.
  destruct (to_numeric c') as [a|] eqn:Ea; [|done]. simpl.
  intros [= <-].
  rewrite (lookup_insert_ne _ "Amount" "Date") by done.
  rewrite (lookup_insert_eq _ "Date"). simpl.
  rewrite (to_datetime_fixed _ _ Ed). simpl.
  rewrite lookup_insert_eq. simpl.
  rewrite (to_numeric_fixed _ _ Ea). simpl.
  f_equal.
  rewrite (insert_id (<["Amount" := a]> (<["Date" := d]> r)) "Date" d).
  - apply insert_id. by rewrite lookup_insert_eq.
  - rewrite lookup_insert_ne by done. by rewrite lookup_insert_eq.
Qed.

Lemma omap_import_row_fixed (l : list row) :
  omap (import_row false) (omap (import_row false) l) = omap (import_row false) l.
Proof.
  induction l as [|r l IH]; [done|]. cbn [omap list_omap].
  destruct (import_row false r) as [r'|] eqn:Er; [|done].
  cbn [omap list_omap]. by rewrite (import_row_fixed _ _ Er), IH.
Qed.

Lemma normalize_idempotent (T : frame) : normalize (normalize T) = normalize T.
Proof.
  pose proof (normalize_rows (normalize T)) as Hrr.
  rewrite (normalize_rows T), omap_import_row_fixed, <- normalize_rows in Hrr.
  destruct (normalize (normalize T)) as [cols rs] eqn:E.
  assert (cols = columns (normalize T)) as ->.
  { change cols with (columns (DataFrame cols rs)). by rewrite <- E. }
  change (rs = rows (normalize T)) in Hrr. subst rs. by destruct (normalize T).
Qed.

Lemma clean_present (df : frame) (w : app) :
  "Date" ∈ columns df → "Amount" ∈ columns df →
  clean df w = (Done (normalize df), w).
Proof.
  intros Hd Ha. unfold clean, mbind, script_bind.
  by rewrite coerce_types_present.
Qed.

Lemma imported_normalize (temp_df : frame) :
  imported temp_df =
  normalize (if decide ("Description" ∈ columns temp_df) then temp_df
             else assign_scalar "Description" (Text "") temp_df).
Proof. done. Qed.

(** Coercing a column a second time changes no cell of it. *)
Lemma coerce_column_twice (f : cell → option cell) (c : string) (df : frame) :
  (∀ x y, f x = Some y → f y = Some y) →
  coerce_column f c (coerce_column f c df) = coerce_column f c df.
Proof.
  intros Hf. unfold coerce_column. simpl. f_equal.
  rewrite map_map. apply map_ext. intros r.
  rewrite (coerce_cell f c (partial_alter _ c r)).
  rewrite lookup_partial_alter_eq.
  destruct (r !! c) as [x|] eqn:Ex; simpl.
  - destruct (f x) as [y|] eqn:Ey; simpl.
    + rewrite (Hf _ _ Ey). apply insert_id.
      rewrite lookup_partial_alter_eq, Ex. simpl. done.
    + apply delete_id. by rewrite lookup_partial_alter_eq, Ex.
  - apply delete_id. by rewrite lookup_partial_alter_eq, Ex.
Qed.

Lemma coerce_column_comm (f g : cell → option cell) (c d : string) (df : frame) :
  c ≠ d →
  coerce_column f c (coerce_column g d df) = coerce_column g d (coerce_column f c df).
Proof.
  intros Hne. unfold coerce_column. simpl. f_equal.
  rewrite !map_map. apply map_ext. intros r.
  by apply partial_alter_partial_alter_ne.
Qed.

(** On a frame whose two columns were coerced, as [load_data] returns it, the
    pass only drops rows. *)
Lemma normalize_coerced (raw : frame) :
  let df := coerce_column to_numeric "Amount"
              (coerce_column to_datetime "Date" raw) in
  normalize df = dropna ["Date"; "Amount"] df.
Proof.
  simpl. unfold normalize. f_equal.
  rewrite (coerce_column_comm to_datetime to_numeric) by done.
  rewrite (coerce_column_twice to_datetime) by apply to_datetime_fixed.
  by rewrite (coerce_column_twice to_numeric) by apply to_numeric_fixed.
Qed.

Lemma load_data_reads (file : csv) (w : app) :
  load_cache w = None → data_file w = Some file →
  "Date" ∈ columns (read_csv file) → "Amount" ∈ columns (read_csv file) →
  let df := coerce_column to_numeric "Amount"
              (coerce_column to_datetime "Date" (read_csv file)) in
  load_data w = (Done df, App (session_df w) (data_file w) (Some df) (screen w)).
Proof.
  intros Hc Hf Hd Ha. cbv zeta.
  unfold load_data, cache_data, load_data_body. rewrite Hc, Hf.
  rewrite coerce_types_present by done. by rewrite Hf.
Qed.

End NormalizeFacts.

(** An instance of C9 as the specification words it: the safety net would
    change nothing on data that passed the normalization at load.  A file with
    a date that does not parse is loaded with that date missing, and the
    safety net then drops the row. *)
Lemma safety_net_changes_loaded_data :
  ∃ (df cleaned : frame) (w : @app iso_pandas),
    load_data fresh_session = (Done df, w) ∧
    clean df w = (Done cleaned, w) ∧
    length (rows df) = 2%nat ∧ length (rows cleaned) = 1%nat ∧
    cleaned ≠ df.
Proof.
  eexists _, _, _. split; [reflexivity|]. split; [reflexivity|].
  split; [reflexivity|]. split; [reflexivity|].
  intros Heq. apply (f_equal (λ f, length (rows f))) in Heq.
  vm_compute in Heq. discriminate.
Qed.

(** C9 (amended). The coerce-or-drop pass is idempotent.  On the table an
    import stored, the safety net changes nothing.  [load_data] coerces but
    does not drop: on the table it returns, the safety net changes no cell
    and drops the rows whose Date or Amount is missing. *)
Theorem normalize_idempotent_safety_net `{Pandas} :
  (∀ T : frame, normalize (normalize T) = normalize T) ∧
  (∀ (temp_df : frame) (w w' : app),
     required_cols ⊆ columns temp_df →
     upload_csv temp_df w = (Done (), w') →
     ∃ ledger, session_df w' = Some ledger ∧
               clean ledger w' = (Done ledger, w')) ∧
  (∀ (file : csv) (w : app),
     load_cache w = None → data_file w = Some file →
     "Date" ∈ columns (read_csv file) → "Amount" ∈ columns (read_csv file) →
     ∃ (df : frame) (w' : app),
       load_data w = (Done df, w') ∧
       clean df w' = (Done (dropna ["Date"; "Amount"] df), w')).
Proof.
  split; [apply normalize_idempotent|]. split.
  - intros temp_df w w' Hreq Hup.
    rewrite upload_csv_accepts in Hup by done. injection Hup as <-.
    exists (imported temp_df). split; [done|].
    assert ("Date" ∈ columns temp_df ∧ "Amount" ∈ columns temp_df) as [Hd Ha].
    { split; apply Hreq; unfold required_cols; rewrite !elem_of_cons; auto. }
    rewrite clean_present.
    + by rewrite imported_normalize, normalize_idempotent.
    + rewrite imported_columns. destruct (lacks_description temp_df);
        [apply elem_of_app|]; auto.
    + rewrite imported_columns. destruct (lacks_description temp_df);
        [apply elem_of_app|]; auto.
  - intros file w Hc Hf Hd Ha. eexists _, _.
    split; [by apply load_data_reads|].
    rewrite clean_present by done. by rewrite normalize_coerced.
Qed.

Lemma normalize_idempotent_safety_net_witness :
  required_cols ⊆ columns two_row_file ∧
  (∃ w', @upload_csv iso_pandas two_row_file started_session = (Done (), w') ∧
         ∃ ledger, session_df w' = Some ledger ∧
                   clean ledger w' = (Done ledger, w')) ∧
  load_cache fresh_session = None ∧
  data_file fresh_session = Some (@to_csv iso_pandas stale_file) ∧
  ("Date" ∈ columns stale_file) ∧ ("Amount" ∈ columns stale_file) ∧
  ∃ (df : frame) (w' : @app iso_pandas),
    load_data fresh_session = (Done df, w') ∧
    clean df w' = (Done (dropna ["Date"; "Amount"] df), w').
Proof.
  assert (required_cols ⊆ columns two_row_file) as Hreq.
  { intros c Hc. unfold required_cols in Hc. unfold two_row_file. simpl.
    rewrite !elem_of_cons in *. tauto. }
  assert ("Date" ∈ columns stale_file) as Hd by by_evaluation.
  assert ("Amount" ∈ columns stale_file) as Ha by by_evaluation.
  split; [exact Hreq|]. split; [|split; [reflexivity|split; [reflexivity|]]].
  - eexists. split; [exact (upload_csv_accepts _ _ Hreq)|].
    exact (proj1 (proj2 (normalize_idempotent_safety_net (H := iso_pandas)))
             two_row_file started_session _ Hreq (upload_csv_accepts _ _ Hreq)).
  - split; [exact Hd|]. split; [exact Ha|].
    exact (proj2 (proj2 (normalize_idempotent_safety_net (H := iso_pandas)))
             stale_file fresh_session eq_refl eq_refl Hd Ha).
Defined.

(** ** The order of group keys *)

Lemma ascii_compare_refl (a : ascii) : Ascii.compare a a = Eq.
Proof. unfold Ascii.compare. apply N.compare_refl. Qed.

Lemma string_compare_trans (a b c : string) :
  String.compare a b = Lt → String.compare b c = Lt → String.compare a c = Lt.
Proof.
  revert b c. induction a as [|x a IH]; intros [|y b] [|z c]; simpl; try done.
  destruct (Ascii.compare x y) eqn:Exy; try done;
    destruct (Ascii.compare y z) eqn:Eyz; try done.
  - apply Ascii.compare_eq_iff in Exy, Eyz. subst.
    rewrite ascii_compare_refl. apply IH.
  - apply Ascii.compare_eq_iff in Exy. subst. by rewrite Eyz.
  - apply Ascii.compare_eq_iff in Eyz. subst. by rewrite Exy.
  - assert (Ascii.compare x z = Lt) as ->; [|done].
    unfold Ascii.compare in *. rewrite N.compare_lt_iff in *. lia.
Qed.

Lemma string_ltb_asym (s t : string) :
  String.ltb s t = true → String.ltb t s = false.
Proof.
  unfold String.ltb. rewrite (String.compare_antisym t s).
  by destruct (String.compare s t).
Qed.

Lemma string_ltb_total (s t : string) :
  String.ltb s t = false → String.ltb t s = false → s = t.
Proof.
  unfold String.ltb. rewrite (String.compare_antisym t s).
  destruct (String.compare s t) eqn:E; try done.
  intros _ _. by apply String.compare_eq_iff.
Qed.

Lemma string_leb_trans (a b c : string) :
  String.ltb b a = false → String.ltb c b = false → String.ltb c a = false.
Proof.
  intros Hab Hbc. destruct (String.ltb c a) eqn:Hca; [|done].
  destruct (String.ltb a b) eqn:Hlt.
  - assert (String.ltb c b = true); [|congruence].
    unfold String.ltb in *.
    destruct (String.compare c a) eqn:E1; try done.
    destruct (String.compare a b) eqn:E2; try done.
    by rewrite (string_compare_trans _ _ _ E1 E2).
  - assert (a = b) as -> by by apply string_ltb_total. congruence.
Qed.

Lemma cell_eqb_refl (a : cell) : cell_eqb a a = true.
Proof.
  destruct a; simpl.
  - apply String.eqb_refl.
  - apply Qeq_bool_refl.
  - apply Z.eqb_refl.
Qed.

Lemma cell_eqb_sym (a b : cell) : cell_eqb a b = cell_eqb b a.
Proof.
  destruct a, b; simpl; try done.
  - apply String.eqb_sym.
  - apply Qeq_bool_comm.
  - apply Z.eqb_sym.
Qed.

Lemma cell_eqb_trans (a b c : cell) :
  cell_eqb a b = true → cell_eqb b c = true → cell_eqb a c = true.
Proof.
  destruct a, b, c; simpl; try done.
  - rewrite !String.eqb_eq. congruence.
  - apply Qeq_bool_trans.
  - rewrite !Z.eqb_eq. congruence.
Qed.

Lemma Qltb_iff (p q : Q) : negb (Qle_bool q p) = true ↔ (p < q)%Q.
Proof.
  rewrite negb_true_iff, <- not_true_iff_false, Qle_bool_iff.
  split; [apply Qnot_le_lt|apply Qlt_not_le].
Qed.

Lemma Qltb_false_iff (p q : Q) : negb (Qle_bool q p) = false ↔ (q <= p)%Q.
Proof. by rewrite negb_false_iff, Qle_bool_iff. Qed.

Lemma cell_ltb_asym (a b : cell) : cell_ltb a b = true → cell_ltb b a = false.
Proof.
  destruct a, b; simpl; try done.
  - apply string_ltb_asym.
  - rewrite Qltb_iff, Qltb_false_iff. apply Qlt_le_weak.
  - rewrite Z.ltb_lt, Z.ltb_ge. lia.
Qed.

Lemma cell_leb_trans (a b c : cell) :
  cell_ltb b a = false → cell_ltb c b = false → cell_ltb c a = false.
Proof.
  destruct a, b, c; simpl; try done.
  - apply string_leb_trans.
  - rewrite !Qltb_false_iff. apply Qle_trans.
  - rewrite !Z.ltb_ge. lia.
Qed.

Lemma cell_ltb_total (a b : cell) :
  cell_ltb a b = false → cell_ltb b a = false → cell_eqb a b = true.
Proof.
  destruct a, b; simpl; try done.
  - intros H1 H2. rewrite (string_ltb_total _ _ H1 H2). apply String.eqb_refl.
  - rewrite !Qltb_false_iff, Qeq_bool_iff. intros. by apply Qle_antisym.
  - rewrite !Z.ltb_ge, Z.eqb_eq. lia.
Qed.

Lemma cell_ltb_eqb_r (c k x : cell) :
  cell_eqb k x = true → cell_ltb c k = true → cell_ltb c x = true.
Proof.
  destruct c, k, x; simpl; try done.
  - rewrite String.eqb_eq. by intros ->.
  - rewrite Qeq_bool_iff, !Qltb_iff. intros <-. done.
  - rewrite Z.eqb_eq. by intros ->.
Qed.

(** ** Insertion sort and first occurrences *)

Lemma elem_of_unique_1 {A} (eqb : A → A → bool) (y : A) (l : list A) :
  y ∈ unique eqb l → y ∈ l.
Proof.
  revert y. induction l as [|x l IH]; intros y; [done|]. simpl.
  rewrite !elem_of_cons, list_elem_of_filter. intros [->|[_ Hy]]; auto.
Qed.

Section SortingFacts.
Context {A : Type} (ltb : A → A → bool).

Lemma elem_of_insert_sorted (x y : A) (l : list A) :
  y ∈ insert_sorted ltb x l ↔ y = x ∨ y ∈ l.
Proof.
  induction l as [|z l IH]; simpl.
  - rewrite list_elem_of_singleton, elem_of_nil. tauto.
  - destruct (ltb x z); rewrite !elem_of_cons; [tauto|].
    rewrite IH. tauto.
Qed.

Lemma elem_of_sorted (y : A) (l : list A) : y ∈ sorted ltb l ↔ y ∈ l.
Proof.
  induction l as [|x l IH]; [done|]. simpl.
  rewrite elem_of_insert_sorted, elem_of_cons, IH. tauto.
Qed.

Hypothesis ltb_asym : ∀ a b, ltb a b = true → ltb b a = false.
Hypothesis leb_trans :
  ∀ a b c, ltb b a = false → ltb c b = false → ltb c a = false.

Lemma insert_sorted_sorted (x : A) (l : list A) :
  StronglySorted (λ a b, ltb b a = false) l →
  StronglySorted (λ a b, ltb b a = false) (insert_sorted ltb x l).
Proof.
  induction 1 as [|y l Hl IH Hy]; simpl.
  - by repeat constructor.
  - destruct (ltb x y) eqn:Hxy.
    + constructor; [by constructor|].
      constructor; [by apply ltb_asym|].
      eapply Forall_impl; [exact Hy|]. intros z Hz. simpl in Hz.
      eapply leb_trans; [|exact Hz]. by apply ltb_asym.
    + constructor; [done|].
      apply Forall_forall. intros z Hz.
      apply elem_of_insert_sorted in Hz as [->|Hz]; [done|].
      by eapply Forall_forall in Hy.
Qed.

Lemma sorted_sorted (l : list A) :
  StronglySorted (λ a b, ltb b a = false) (sorted ltb l).
Proof.
  induction l as [|x l IH]; simpl; [constructor|].
  by apply insert_sorted_sorted.
Qed.

End SortingFacts.

(** ** Groups *)

Lemma distinct_keys_filter (P : cell → Prop) `{!∀ k, Decision (P k)} (l : list cell) :
  distinct_keys l → distinct_keys (filter P l).
Proof.
  induction l as [|k l IH]; [done|]. intros [Hk Hl].
  rewrite filter_cons. destruct (decide (P k)); [|by apply IH].
  split; [|by apply IH].
  apply Forall_forall. intros k' Hk'. apply list_elem_of_filter in Hk' as [_ Hk'].
  by eapply Forall_forall in Hk.
Qed.

Lemma unique_distinct (l : list cell) : distinct_keys (unique cell_eqb l).
Proof.
  induction l as [|k l IH]; [done|]. simpl. split.
  - apply Forall_forall. intros k' Hk'.
    apply list_elem_of_filter in Hk' as [Hk' _].
    by apply negb_prop_elim, Is_true_false in Hk'.
  - by apply distinct_keys_filter.
Qed.

Lemma unique_covers (l : list cell) (x : cell) :
  x ∈ l → ∃ k, k ∈ unique cell_eqb l ∧ cell_eqb x k = true.
Proof.
  induction l as [|y l IH]; [by intros ?%elem_of_nil|].
  intros [->|Hx]%elem_of_cons; simpl.
  - exists y. split; [by left|apply cell_eqb_refl].
  - destruct (IH Hx) as (k & Hk & Hxk).
    destruct (cell_eqb y k) eqn:Hyk.
    + exists y. split; [by left|].
      rewrite cell_eqb_sym in Hyk. by eapply cell_eqb_trans.
    + exists k. split; [|done]. right. apply list_elem_of_filter.
      split; [|done]. by rewrite Hyk.
Qed.

Lemma distinct_keys_sorted (l : list cell) :
  distinct_keys l → distinct_keys (sorted cell_ltb l).
Proof.
  assert (∀ x l, distinct_keys l → Forall (λ k', cell_eqb x k' = false) l →
                 distinct_keys (insert_sorted cell_ltb x l)) as Hins.
  { intros x. induction l0 as [|y l0 IH]; intros Hd Hx; simpl; [done|].
    destruct (cell_ltb x y); [done|].
    destruct Hd as [Hy Hd]. apply Forall_cons in Hx as [Hxy Hx]. split.
    - apply Forall_forall. intros z Hz.
      apply elem_of_insert_sorted in Hz as [->|Hz].
      + by rewrite cell_eqb_sym.
      + by eapply Forall_forall in Hy.
    - by apply IH. }
  induction l as [|x l IH]; [done|]. intros [Hx Hd]. simpl.
  apply Hins; [by apply IH|].
  apply Forall_forall. intros z Hz. apply elem_of_sorted in Hz.
  by eapply Forall_forall in Hx.
Qed.

Lemma concat_map_nil {A B} (f : A → list B) (K : list A) :
  (∀ k, k ∈ K → f k = []) → List.concat (map f K) = [].
Proof.
  induction K as [|k K IH]; intros Hf; [done|]. simpl.
  rewrite (Hf k) by (by left). apply IH. intros k' Hk'. apply Hf. by right.
Qed.

Lemma concat_map_app {A B} (f g : A → list B) (K : list A) :
  List.concat (map (λ k, f k ++ g k) K) ≡ₚ List.concat (map f K) ++ List.concat (map g K).
Proof.
  induction K as [|k K IH]; [done|]. simpl. rewrite IH.
  rewrite <- !app_assoc. f_equiv. rewrite !app_assoc. f_equiv.
  apply Permutation_app_comm.
Qed.

Lemma concat_map_ext {A B} (f g : A → list B) (K : list A) :
  (∀ k, k ∈ K → f k = g k) → List.concat (map f K) = List.concat (map g K).
Proof.
  induction K as [|k K IH]; intros Hfg; [done|]. simpl.
  rewrite (Hfg k) by (by left). rewrite IH; [done|].
  intros k' Hk'. apply Hfg. by right.
Qed.

(** Among distinct keys, exactly one is equal to a value they cover. *)
Lemma concat_one_key {B} (x : cell) (b : list B) (K : list cell) :
  distinct_keys K →
  (∃ k, k ∈ K ∧ cell_eqb x k = true) →
  List.concat (map (λ k, if cell_eqb x k then b else []) K) = b.
Proof.
  induction K as [|k0 K IH]; intros Hd (k & Hk & Hxk).
  { by apply elem_of_nil in Hk. }
  destruct Hd as [Hk0 Hd]. simpl.
  destruct (cell_eqb x k0) eqn:Hx0.
  - rewrite concat_map_nil; [by rewrite app_nil_r|].
    intros k' Hk'. eapply Forall_forall in Hk0; [|exact Hk'].
    destruct (cell_eqb x k') eqn:Hx'; [|done].
    rewrite cell_eqb_sym in Hx0.
    by rewrite (cell_eqb_trans _ _ _ Hx0 Hx') in Hk0.
  - apply elem_of_cons in Hk as [->|Hk]; [congruence|].
    simpl. apply IH; [done|eauto].
Qed.

(** The groups of distinct keys that cover every row hold every row once. *)
Lemma groups_partition (key : string) (l : list row) (K : list cell) :
  distinct_keys K →
  (∀ r, r ∈ l → ∃ x, r !! key = Some x ∧ ∃ k, k ∈ K ∧ cell_eqb x k = true) →
  List.concat (map (λ k, filter (λ r, col_eq key (Some k) r) l) K) ≡ₚ l.
Proof.
  intros Hd. induction l as [|r l IH]; intros Hcov.
  - simpl. by rewrite concat_map_nil.
  - destruct (Hcov r) as (x & Hx & Hk); [by left|].
    rewrite (concat_map_ext _
               (λ k, (if cell_eqb x k then [r] else []) ++
                     filter (λ r, col_eq key (Some k) r) l)).
    + rewrite concat_map_app, (concat_one_key x [r] K Hd Hk). simpl.
      f_equiv. apply IH. intros r' Hr'. apply Hcov. by right.
    + intros k _.
      assert (col_eq key (Some k) r = cell_eqb x k) as <-
        by (unfold col_eq; by rewrite Hx).
      rewrite filter_cons. by destruct (col_eq key (Some k) r).
Qed.

Lemma omap_concat {A B} (f : A → option B) (ls : list (list A)) :
  omap f (List.concat ls) = List.concat (map (omap f) ls).
Proof.
  induction ls as [|l ls IH]; [done|]. simpl. by rewrite omap_app, IH.
Qed.

(** The amounts of the groups are the amounts of the table, each once. *)
Lemma group_amounts_partition (key : string) (df : frame) :
  (∀ r, r ∈ rows df → is_Some (r !! key)) →
  List.concat (map (λ k, amounts (select key (Some k) df)) (group_keys key df))
    ≡ₚ amounts df.
Proof.
  intros Hkey. unfold amounts, select. simpl.
  rewrite <- (map_map (λ k, filter (λ r, col_eq key (Some k) r) (rows df))
                      (omap _)).
  rewrite <- omap_concat. apply omap_Permutation.
  apply groups_partition.
  - apply distinct_keys_sorted, unique_distinct.
  - intros r Hr. destruct (Hkey r Hr) as [x Hx]. exists x. split; [done|].
    destruct (unique_covers (omap (λ r, r !! key) (rows df)) x) as (k & Hk & Hxk).
    { apply list_elem_of_omap. eauto. }
    exists k. split; [|done]. by apply elem_of_sorted.
Qed.

Lemma group_keys_distinct (key : string) (df : frame) :
  distinct_keys (group_keys key df).
Proof. apply distinct_keys_sorted, unique_distinct. Qed.

Lemma group_keys_cover (key : string) (df : frame) (r : row) (x : cell) :
  r ∈ rows df → r !! key = Some x →
  ∃ k, k ∈ group_keys key df ∧ cell_eqb x k = true.
Proof.
  intros Hr Hx.
  destruct (unique_covers (omap (λ r, r !! key) (rows df)) x) as (k & Hk & Hxk).
  { apply list_elem_of_omap. eauto. }
  exists k. split; [|done]. by apply elem_of_sorted.
Qed.

Lemma group_keys_present (key : string) (df : frame) (k : cell) :
  k ∈ group_keys key df → ∃ r, r ∈ rows df ∧ r !! key = Some k.
Proof.
  intros Hk%elem_of_sorted%elem_of_unique_1.
  by apply list_elem_of_omap in Hk.
Qed.

Lemma group_total_eqb `{Pandas} (key : string) (df : frame) (k x : cell) :
  cell_eqb k x = true → group_total key df k = group_total key df x.
Proof.
  intros Hkx. unfold group_total, amounts, select. simpl.
  do 2 f_equal. apply list_filter_iff. intros r. unfold col_eq.
  destruct (r !! key) as [y|]; [|done].
  destruct (cell_eqb y k) eqn:Hyk.
  - by rewrite (cell_eqb_trans _ _ _ Hyk Hkx).
  - destruct (cell_eqb y x) eqn:Hyx; [|done].
    rewrite cell_eqb_sym in Hkx.
    by rewrite (cell_eqb_trans _ _ _ Hyx Hkx) in Hyk.
Qed.




(** ** The top category *)

(** [idxmax] picks the first entry whose value no other entry exceeds. *)
Lemma idxmax_from_first_max (l pre mid : list (cell * Q)) (best : cell * Q) :
  Forall (λ kv, (kv.2 < best.2)%Q) pre →
  Forall (λ kv, (kv.2 <= best.2)%Q) mid →
  ∃ pre' v post,
    pre ++ best :: mid ++ l = pre' ++ (idxmax_from best l, v) :: post ∧
    Forall (λ kv, (kv.2 < v)%Q) pre' ∧
    Forall (λ kv, (kv.2 <= v)%Q) post.
Proof.
  revert pre mid best. induction l as [|kv l IH]; intros pre mid best Hpre Hmid.
  - exists pre, best.2, mid. rewrite app_nil_r. by destruct best.
  - simpl. destruct (negb (Qle_bool kv.2 best.2)) eqn:Hlt.
    + apply Qltb_iff in Hlt.
      destruct (IH (pre ++ best :: mid) [] kv) as (pre' & v & post & Heq & H1 & H2).
      * apply Forall_app. split; [|constructor].
        -- eapply Forall_impl; [exact Hpre|]. intros x Hx. simpl in Hx.
           by eapply Qlt_trans.
        -- done.
        -- eapply Forall_impl; [exact Hmid|]. intros x Hx. simpl in Hx.
           by eapply Qle_lt_trans.
      * constructor.
      * exists pre', v, post. split; [|done].
        rewrite <- Heq. simpl. by rewrite <- app_assoc.
    + apply Qltb_false_iff in Hlt.
      destruct (IH pre (mid ++ [kv]) best) as (pre' & v & post & Heq & H1 & H2).
      * done.
      * apply Forall_app. split; [done|]. by repeat constructor.
      * exists pre', v, post. split; [|done].
        rewrite <- Heq. by rewrite <- app_assoc.
Qed.

Lemma sorted_after (R : cell → cell → Prop) (l1 l2 : list cell) (c : cell) :
  StronglySorted R (l1 ++ c :: l2) → Forall (R c) l2.
Proof.
  induction l1 as [|x l1 IH]; simpl; intros Hs.
  - by apply StronglySorted_inv in Hs as [_ ?].
  - apply StronglySorted_inv in Hs as [Hs _]. by apply IH.
Qed.

Lemma distinct_after (l1 l2 : list cell) (c : cell) :
  distinct_keys (l1 ++ c :: l2) → Forall (λ k, cell_eqb c k = false) l2.
Proof.
  induction l1 as [|x l1 IH]; simpl; intros Hd.
  - by destruct Hd.
  - destruct Hd as [_ Hd]. by apply IH.
Qed.

(** C7, at the input on which the code fails it.  The file
    [Date,Category,Amount\n2024-01-01,,100] is imported and leaves a table
    of one record, which is not empty and in which no record has a category.
    The script guards the top category by [filtered_df.empty] only, so the
    grouped series is empty and [idxmax] raises: the run ends in [ValueError]
    and no top category is shown. *)
Lemma top_category_fails_without_categories :
  (run 0 None (Some no_category_file) All (Some (Text All)) first_run).1
    = Raised ValueError ∧
  ∃ ledger : frame,
    session_df
      (run 0 None (Some no_category_file) All (Some (Text All)) first_run).2
      = Some ledger ∧
    empty ledger = false ∧
    (∀ r, r ∈ rows ledger → r !! "Category" = None) ∧
    @top_category iso_pandas ledger = Raised ValueError.
Proof.
  split; [vm_compute; reflexivity|].
  eexists. split; [vm_compute; reflexivity|].
  split; [reflexivity|]. split; [|reflexivity].
  intros r Hr. apply elem_of_cons in Hr as [->|Hr]; [reflexivity|].
  by apply elem_of_nil in Hr.
Qed.

(** X18. For an empty table the top category is "N/A".  For a table that
    is not empty and has a record with a category, the top category is a
    category of the table whose group sum (as [groupby] computes it) no
    group sum exceeds, and every other category with an equal group sum comes
    after it in the order of the keys: ties go to the first key. *)
Theorem top_category_first_maximum `{Pandas} (T : frame) :
  (empty T = true → top_category T = Done (Text "N/A")) ∧
  (empty T = false →
   (∃ r, r ∈ rows T ∧ is_Some (r !! "Category")) →
   ∃ c, top_category T = Done c ∧
        (∃ r, r ∈ rows T ∧ r !! "Category" = Some c) ∧
        ∀ r x, r ∈ rows T → r !! "Category" = Some x →
          (group_total "Category" T x <= group_total "Category" T c)%Q ∧
          ((group_total "Category" T x == group_total "Category" T c)%Q →
           cell_eqb x c = true ∨ cell_ltb c x = true)).
Proof.
  split; [by unfold top_category; intros ->|].
  intros Hne (r0 & Hr0 & [x0 Hx0]). unfold top_category. rewrite Hne.
  unfold groupby_sum.
  destruct (group_keys_cover "Category" T r0 x0 Hr0 Hx0) as (k0 & Hk0 & _).
  pose proof (group_keys_distinct "Category" T) as Hdist.
  pose proof (sorted_sorted cell_ltb cell_ltb_asym cell_leb_trans
                (unique cell_eqb (omap (λ r, r !! "Category") (rows T)))) as Hsort.
  fold (group_keys "Category" T) in Hsort.
  pose proof (group_keys_cover "Category" T) as Hcover.
  pose proof (group_keys_present "Category" T) as Hpresent.
  set (total := group_total "Category" T) in *.
  destruct (group_keys "Category" T) as [|k K] eqn:EK.
  { by apply elem_of_nil in Hk0. }
  simpl.
  destruct (idxmax_from_first_max (map (λ k, (k, total k)) K) [] [] (k, total k))
    as (pre & v & post & Heq & Hpre & Hpost); [constructor..|].
  simpl in Heq. set (c := idxmax_from (k, total k) (map (λ k, (k, total k)) K)) in *.
  change ((k, total k) :: map (λ k, (k, total k)) K)
    with (map (λ k, (k, total k)) (k :: K)) in Heq.
  assert (v = total c ∧ k :: K = pre.*1 ++ c :: post.*1) as [-> Hkeys].
  { apply (f_equal (map fst)) in Heq as Hfst.
    rewrite map_map, map_app in Hfst. simpl in Hfst. rewrite map_id in Hfst.
    split; [|done].
    assert ((c, v) ∈ map (λ k, (k, total k)) (k :: K)) as Hin.
    { rewrite Heq. apply elem_of_app. right. by left. }
    apply list_elem_of_fmap in Hin as (k' & [= -> ->] & _). done. }
  exists c. split; [done|]. split.
  { apply Hpresent. rewrite Hkeys. apply elem_of_app. right. by left. }
  intros r x Hr Hx.
  destruct (Hcover r x Hr Hx) as (k' & Hk' & Hxk).
  assert (total x = total k') as ->.
  { unfold total. apply group_total_eqb. done. }
  assert ((k', total k') ∈ pre ++ (c, total c) :: post) as Hin.
  { rewrite <- Heq. apply list_elem_of_fmap. eauto. }
  apply elem_of_app in Hin as [Hin|Hin].
  - eapply Forall_forall in Hpre; [|exact Hin]. simpl in Hpre. split.
    + by apply Qlt_le_weak.
    + intros Htie. rewrite Htie in Hpre. by apply Qlt_irrefl in Hpre.
  - apply elem_of_cons in Hin as [[= -> _]|Hin].
    + split; [apply Qle_refl|]. intros _. by left.
    + eapply Forall_forall in Hpost as Hle; [|exact Hin]. simpl in Hle.
      split; [done|]. intros _. right.
      assert (k' ∈ post.*1) as Hk'post.
      { apply list_elem_of_fmap. by exists (k', total k'). }
      rewrite Hkeys in Hsort, Hdist.
      apply sorted_after in Hsort. apply distinct_after in Hdist.
      eapply Forall_forall in Hsort; [|exact Hk'post].
      eapply Forall_forall in Hdist; [|exact Hk'post].
      simpl in Hsort.
      apply (cell_ltb_eqb_r c k' x); [by rewrite cell_eqb_sym|].
      destruct (cell_ltb c k') eqn:Hlt; [done|].
      by rewrite (cell_ltb_total _ _ Hlt Hsort) in Hdist.
Qed.

Lemma top_category_first_maximum_witness :
  empty tied_table = false ∧
  (∃ r, r ∈ rows tied_table ∧ is_Some (r !! "Category")) ∧
  @top_category iso_pandas tied_table = Done (Text "Food") ∧
  ∃ c, @top_category iso_pandas tied_table = Done c ∧
       (∃ r, r ∈ rows tied_table ∧ r !! "Category" = Some c) ∧
       ∀ r x, r ∈ rows tied_table → r !! "Category" = Some x →
         (@group_total iso_pandas "Category" tied_table x <=
          @group_total iso_pandas "Category" tied_table c)%Q ∧
         ((@group_total iso_pandas "Category" tied_table x ==
           @group_total iso_pandas "Category" tied_table c)%Q →
          cell_eqb x c = true ∨ cell_ltb c x = true).
Proof.
  assert (∃ r, r ∈ rows tied_table ∧ is_Some (r !! "Category")) as Hcat.
  { eexists. split; [by left|]. by eexists. }
  split; [reflexivity|]. split; [exact Hcat|]. split; [by vm_compute|].
  exact (proj2 (top_category_first_maximum (H := iso_pandas) tied_table)
           eq_refl Hcat).
Defined.

(** * Further properties of the script *)

(** ** Loading *)

Section LoadFacts.
Context `{Pandas}.

Lemma init_session_started (w : app) (df : frame) :
  session_df w = Some df → init_session w = (Done (), w).
Proof. intros Hdf. unfold init_session. by rewrite Hdf. Qed.

Lemma get_session_df_started (w : app) (df : frame) :
  session_df w = Some df → get_session_df w = (Done df, w).
Proof. intros Hdf. unfold get_session_df. by rewrite Hdf. Qed.

Lemma dashboard_empty (b : Q) (m : string) (c : option cell) (w : app) (df : frame) :
  session_df w = Some df → empty df = true →
  dashboard b m c w =
  (Stopped, App (session_df w) (data_file w) (load_cache w) (screen w ++ [no_data])).
Proof.
  intros Hdf He. unfold dashboard, mbind, script_bind.
  rewrite (get_session_df_started _ _ Hdf), He. reflexivity.
Qed.

End LoadFacts.

(** X1. The first run on a machine without [expenses.csv] creates the file
    from the empty table with the four schema columns, keeps that table as
    the session table and as the memo of [load_data], and stops on the notice
    that there is no data; no metric or alert is shown. *)
Theorem first_run_creates_data_file `{Pandas}
    (b : Q) (m : string) (c : option cell) (w : app) :
  session_df w = None → load_cache w = None → data_file w = None →
  run b None None m c w =
  (Stopped, App (Some (DataFrame schema []))
                (Some (to_csv (DataFrame schema [])))
                (Some (DataFrame schema []))
                (screen w ++ [no_data])).
Proof.
  intros Hs Hc Hf. unfold run, mbind, script_bind.
  unfold init_session. rewrite Hs.
  unfold mbind, script_bind, load_data, cache_data, load_data_body.
  rewrite Hc, Hf. simpl.
  by rewrite (dashboard_empty _ _ _ _ (DataFrame schema [])).
Qed.

Lemma first_run_creates_data_file_witness :
  session_df first_run = None ∧ load_cache first_run = None ∧
  data_file first_run = None ∧
  run 150 None None All (Some (Text All)) first_run =
  (Stopped, App (Some (DataFrame schema []))
                (Some (@to_csv iso_pandas (DataFrame schema [])))
                (Some (DataFrame schema []))
                (screen first_run ++ [no_data])).
Proof.
  split; [reflexivity|]. split; [reflexivity|]. split; [reflexivity|].
  exact (first_run_creates_data_file (H := iso_pandas) 150 All (Some (Text All))
           first_run eq_refl eq_refl eq_refl).
Defined.

(** X2. When the session starts on a data file that has no Date column, or
    has one but no Amount column, [load_data] raises [KeyError] for that
    column: the run ends there, nothing is memoized, and the session table,
    the file and the page are as they were. *)
Theorem load_data_missing_column_raises `{Pandas}
    (b : Q) (form : option expense_form) (up : option frame)
    (m : string) (c : option cell) (w : app) (file : csv) :
  session_df w = None → load_cache w = None → data_file w = Some file →
  ("Date" ∉ columns (read_csv file) →
   run b form up m c w = (Raised (KeyError "Date"), w)) ∧
  ("Date" ∈ columns (read_csv file) → "Amount" ∉ columns (read_csv file) →
   run b form up m c w = (Raised (KeyError "Amount"), w)).
Proof.
  intros Hs Hc Hf.
  assert (∀ k, load_data w = (Raised (KeyError k), w) →
               run b form up m c w = (Raised (KeyError k), w)) as Hrun.
  { intros k Hload. unfold run, mbind, script_bind, init_session.
    rewrite Hs. unfold mbind, script_bind. by rewrite Hload. }
  split.
  - intros Hd. apply Hrun.
    unfold load_data, cache_data, load_data_body. rewrite Hc, Hf.
    unfold coerce_types, mbind, script_bind. by rewrite getitem_absent.
  - intros Hd Ha. apply Hrun.
    unfold load_data, cache_data, load_data_body. rewrite Hc, Hf.
    unfold coerce_types, mbind, script_bind.
    rewrite getitem_present by done. by rewrite getitem_absent.
Qed.

Lemma load_data_missing_column_raises_witness :
  let w := App None (Some (@to_csv iso_pandas undated_file)) None [] in
  session_df w = None ∧ load_cache w = None ∧
  data_file w = Some (@to_csv iso_pandas undated_file) ∧
  ("Date" ∉ columns undated_file) ∧
  run 0 (Some lunch) None All (Some (Text All)) w = (Raised (KeyError "Date"), w).
Proof.
  intros w.
  assert ("Date" ∉ columns undated_file) as Hd by by_evaluation.
  split; [reflexivity|]. split; [reflexivity|]. split; [reflexivity|].
  split; [exact Hd|].
  exact (proj1 (load_data_missing_column_raises (H := iso_pandas)
                  0 (Some lunch) None All (Some (Text All)) w
                  (@to_csv iso_pandas undated_file) eq_refl eq_refl eq_refl) Hd).
Defined.

(** X3. Once [load_data] is memoized, a new session gets the memoized table
    and does not read the data file.  So after a manual entry has rewritten
    the file with the new record, a session that starts next still works on
    the table of the first load. *)
Theorem new_session_gets_memo `{Pandas}
    (w : app) (df memo : frame) (R : expense_form) :
  session_df w = Some df → load_cache w = Some memo →
  ∃ w1 : app,
    add_expense R w = (Done (), w1) ∧
    data_file w1 = Some (to_csv (concat df (DataFrame schema [new_row R]))) ∧
    init_session (new_session w1) =
      (Done (), App (Some memo) (data_file w1) (Some memo) []).
Proof.
  intros Hdf Hmemo. eexists. split; [by apply add_expense_appends|].
  split; [done|].
  unfold init_session, new_session, mbind, script_bind, load_data, cache_data.
  simpl. by rewrite Hmemo.
Qed.

Lemma new_session_gets_memo_witness :
  ∃ df memo,
    session_df started_session = Some df ∧
    load_cache started_session = Some memo ∧
    rows memo = [] ∧
    ∃ w1 : @app iso_pandas,
      add_expense lunch started_session = (Done (), w1) ∧
      data_file w1 = Some (to_csv (concat df (DataFrame schema [new_row lunch]))) ∧
      init_session (new_session w1) =
        (Done (), App (Some memo) (data_file w1) (Some memo) []).
Proof.
  eexists _, _. split; [reflexivity|]. split; [reflexivity|].
  split; [reflexivity|].
  exact (new_session_gets_memo (H := iso_pandas) started_session _ _ lunch
           eq_refl eq_refl).
Defined.

(** ** Runs that write *)

Section RunFacts.
Context `{Pandas}.

Lemma synced_stores (w w' : app) : stores w' = stores w → synced w → synced w'.
Proof.
  unfold stores. intros [= Hs Hf _] (df & Hdf & Hfile).
  exists df. by rewrite Hs, Hf.
Qed.

Lemma bind_read_only_tail {A B} (m : script A) (k : A → script B) (w : app) :
  (∀ a, read_only (k a)) → stores ((m ≫= k) w).2 = stores (m w).2.
Proof.
  intros Hk. unfold mbind, script_bind.
  destruct (m w) as [[a| |e] w1]; simpl; [apply Hk|done..].
Qed.

Lemma run_stores (b : Q) (form : option expense_form) (up : option frame)
    (m : string) (c : option cell) (w : app) (df : frame) :
  session_df w = Some df →
  stores (run b form up m c w).2 = stores (upload_block up (after_form form w)).2.
Proof.
  intros Hdf. unfold run. unfold mbind at 1, script_bind at 1.
  rewrite (init_session_started _ _ Hdf).
  unfold mbind at 1, script_bind at 1. destruct form as [R|]; simpl after_form.
  - rewrite (add_expense_appends _ _ _ Hdf). simpl.
    apply (bind_read_only_tail (upload_block up)).
    intros _. apply read_only_dashboard.
  - simpl. apply (bind_read_only_tail (upload_block up)).
    intros _. apply read_only_dashboard.
Qed.

Lemma after_form_started (form : option expense_form) (w : app) (df : frame) :
  session_df w = Some df → is_Some (session_df (after_form form w)).
Proof.
  intros Hdf. destruct form as [R|]; simpl.
  - rewrite (add_expense_appends _ _ _ Hdf). by eexists.
  - by rewrite Hdf.
Qed.

Lemma after_form_synced (form : option expense_form) (w : app) :
  synced w → synced (after_form form w).
Proof.
  intros (df & Hdf & Hfile). destruct form as [R|]; simpl.
  - rewrite (add_expense_appends _ _ _ Hdf). by eexists.
  - by exists df.
Qed.

Lemma upload_block_synced (up : option frame) (w : app) :
  synced w → synced (upload_block up w).2.
Proof.
  intros Hw. destruct up as [temp_df|]; [|done]. simpl.
  destruct (decide (required_cols ⊆ columns temp_df)) as [Hreq|Hreq].
  - rewrite upload_csv_accepts by done. by eexists.
  - rewrite upload_csv_rejects by done. done.
Qed.

Lemma empty_no_rows (df : frame) : rows df = [] → empty df = true.
Proof. unfold empty. intros ->. by destruct (columns df). Qed.

End RunFacts.

(** X4. The data file follows the session table.  A run that starts with
    the file holding what the session table holds ends that way, however it
    ends; and whatever the file held, it holds the session table at the end
    of every run in which an expense was added or an upload was accepted. *)
Theorem run_keeps_file_in_sync `{Pandas}
    (b : Q) (form : option expense_form) (up : option frame)
    (m : string) (c : option cell) (w : app) (df : frame) :
  session_df w = Some df →
  (synced w → synced (run b form up m c w).2) ∧
  (is_Some form → synced (run b form up m c w).2) ∧
  (∀ temp_df, up = Some temp_df → required_cols ⊆ columns temp_df →
     synced (run b form up m c w).2).
Proof.
  intros Hdf. pose proof (run_stores b form up m c w df Hdf) as Hst.
  split; [|split].
  - intros Hw. eapply synced_stores; [exact Hst|].
    by apply upload_block_synced, after_form_synced.
  - intros [R ->]. eapply synced_stores; [exact Hst|].
    apply upload_block_synced. simpl.
    rewrite (add_expense_appends _ _ _ Hdf). by eexists.
  - intros temp_df -> Hreq. eapply synced_stores; [exact Hst|].
    simpl. rewrite upload_csv_accepts by done. by eexists.
Qed.

Lemma run_keeps_file_in_sync_witness :
  ∃ df, session_df started_session = Some df ∧
        synced started_session ∧
        synced (run 150 (Some lunch) None All (Some (Text All)) started_session).2.
Proof.
  eexists. split; [reflexivity|].
  assert (synced started_session) as Hw by (eexists; split; reflexivity).
  split; [exact Hw|].
  exact (proj1 (run_keeps_file_in_sync (H := iso_pandas) 150 (Some lunch) None
                  All (Some (Text All)) started_session _ eq_refl) Hw).
Defined.

(** X5. When a run has both a submitted expense and an uploaded file with
    the required columns, the expense is added and written first and the
    import then replaces the table and the file: at the end of the run the
    session table and the data file are those of the same run without the
    expense. *)
Theorem upload_discards_added_expense `{Pandas}
    (b : Q) (R : expense_form) (temp_df : frame)
    (m : string) (c : option cell) (w : app) (df : frame) :
  session_df w = Some df →
  required_cols ⊆ columns temp_df →
  stores (run b (Some R) (Some temp_df) m c w).2 =
    (Some (imported temp_df), Some (to_csv (imported temp_df)), load_cache w) ∧
  stores (run b (Some R) (Some temp_df) m c w).2 =
    stores (run b None (Some temp_df) m c w).2.
Proof.
  intros Hdf Hreq.
  rewrite !(run_stores _ _ _ _ _ _ _ Hdf). simpl.
  rewrite (add_expense_appends _ _ _ Hdf).
  by rewrite !upload_csv_accepts by done.
Qed.

Lemma upload_discards_added_expense_witness :
  ∃ df, session_df started_session = Some df ∧
  required_cols ⊆ columns two_row_file ∧
  stores (run 0 (Some lunch) (Some two_row_file) All (Some (Text All))
            started_session).2 =
    (Some (@imported iso_pandas two_row_file),
     Some (@to_csv iso_pandas (@imported iso_pandas two_row_file)),
     load_cache started_session) ∧
  stores (run 0 (Some lunch) (Some two_row_file) All (Some (Text All))
            started_session).2 =
    stores (run 0 None (Some two_row_file) All (Some (Text All))
              started_session).2.
Proof.
  assert (required_cols ⊆ columns two_row_file) as Hreq.
  { intros c. unfold required_cols, two_row_file, columns.
    rewrite !elem_of_cons. tauto. }
  eexists. split; [reflexivity|]. split; [exact Hreq|].
  exact (upload_discards_added_expense (H := iso_pandas) 0 lunch two_row_file
           All (Some (Text All)) started_session _ eq_refl Hreq).
Defined.

(** X6. An accepted upload in which no row has both a Date and an Amount
    that parse shows its success notice and then stops the run on the notice
    that there is no data: no metric, alert or export follows. *)
Theorem empty_import_stops_dashboard `{Pandas}
    (b : Q) (temp_df : frame) (m : string) (c : option cell)
    (w : app) (df : frame) :
  session_df w = Some df →
  required_cols ⊆ columns temp_df →
  (∀ r, r ∈ rows temp_df →
        r !! "Date" ≫= to_datetime = None ∨ r !! "Amount" ≫= to_numeric = None) →
  ∃ w', run b None (Some temp_df) m c w = (Stopped, w') ∧
        screen w' = screen w ++ [import_ok; no_data].
Proof.
  intros Hdf Hreq Hbad. unfold run. unfold mbind at 1, script_bind at 1.
  rewrite (init_session_started _ _ Hdf).
  unfold mbind, script_bind. simpl.
  rewrite upload_csv_accepts by done.
  erewrite dashboard_empty; [| reflexivity |].
  - eexists. split; [reflexivity|]. simpl. by rewrite <- app_assoc.
  - apply empty_no_rows. rewrite imported_rows.
    induction (rows temp_df) as [|r l IH]; [done|].
    cbn [omap list_omap].
    rewrite (proj2 (import_row_None _ r)) by (apply Hbad; left).
    apply IH. intros r' Hr'. apply Hbad. by right.
Qed.

Lemma empty_import_stops_dashboard_witness :
  ∃ df, session_df started_session = Some df ∧
  required_cols ⊆ columns unparsable_file ∧
  (∀ r, r ∈ rows unparsable_file →
        r !! "Date" ≫= @to_datetime iso_pandas = None ∨
        r !! "Amount" ≫= @to_numeric iso_pandas = None) ∧
  ∃ w', run 150 None (Some unparsable_file) All (Some (Text All)) started_session
          = (Stopped, w') ∧
        screen w' = screen started_session ++ [import_ok; no_data].
Proof.
  assert (required_cols ⊆ columns unparsable_file) as Hreq.
  { intros c. unfold required_cols, unparsable_file, columns.
    rewrite !elem_of_cons. tauto. }
  assert (∀ r, r ∈ rows unparsable_file →
            r !! "Date" ≫= @to_datetime iso_pandas = None ∨
            r !! "Amount" ≫= @to_numeric iso_pandas = None) as Hbad.
  { intros r Hr. unfold unparsable_file, rows in Hr.
    apply elem_of_cons in Hr as [->|Hr]; [left; reflexivity|].
    apply elem_of_cons in Hr as [->|Hr]; [right; reflexivity|].
    apply elem_of_cons in Hr as [->|Hr]; [left; reflexivity|].
    by apply elem_of_nil in Hr. }
  eexists. split; [reflexivity|]. split; [exact Hreq|]. split; [exact Hbad|].
  exact (empty_import_stops_dashboard (H := iso_pandas) 150 unparsable_file
           All (Some (Text All)) started_session _ eq_refl Hreq Hbad).
Defined.

(** ** The safety net *)

Section CleanFacts.
Context `{Pandas}.

Lemma to_datetime_timestamp (c d : cell) :
  to_datetime c = Some d → ∃ ns, d = Timestamp ns.
Proof.
  destruct c as [s|q|ns]; simpl.
  - destruct (datetime_of_text s); [|done]. intros [= <-]. by eexists.
  - destruct (datetime_of_number q); [|done]. intros [= <-]. by eexists.
  - intros [= <-]. by eexists.
Qed.

Lemma to_numeric_number (c a : cell) :
  to_numeric c = Some a → ∃ q, a = Number q.
Proof.
  destruct c as [s|q|ns]; simpl.
  - destruct (numeric_of_text s); [|done]. intros [= <-]. by eexists.
  - intros [= <-]. by eexists.
  - intros [= <-]. by eexists.
Qed.

Lemma import_row_typed (b : bool) (r r' : row) :
  import_row b r = Some r' → typed_row r'.
Proof.
  unfold import_row.
  destruct (r !! "Date" ≫= to_datetime) as [d|] eqn:Ed; [|done].
  destruct (r !! "Amount" ≫= to_numeric) as [a|] eqn:Ea; [|done].
  simpl. intros [= <-].
  destruct (r !! "Date") as [c|]; [|done]. simpl in Ed.
  destruct (r !! "Amount") as [c'|]; [|done]. simpl in Ea.
  destruct (to_datetime_timestamp _ _ Ed) as [ns ->].
  destruct (to_numeric_number _ _ Ea) as [q ->].
  split.
  - exists ns. rewrite lookup_insert_ne by done. by rewrite lookup_insert_eq.
  - exists q. by rewrite lookup_insert_eq.
Qed.

Lemma clean_done (df df' : frame) (w w' : app) :
  clean df w = (Done df', w') →
  w' = w ∧ df' = normalize df ∧ "Date" ∈ columns df ∧ "Amount" ∈ columns df.
Proof.
  unfold clean, coerce_types, mbind, script_bind, getitem. simpl.
  destruct (decide ("Date" ∈ columns df)); [|done].
  destruct (decide ("Amount" ∈ columns df)); [|done].
  by intros [= <- <-].
Qed.

Lemma with_month_lookup (df : frame) (r : row) :
  r ∈ rows (with_month df) →
  ∃ r0, r0 ∈ rows df ∧
        (∀ c, c ≠ "Month" → r !! c = r0 !! c) ∧
        r !! "Month" =
          Some (Text (match r0 !! "Date" with
                      | Some (Timestamp ns) => month_key ns
                      | _ => "NaT"
                      end)).
Proof.
  unfold with_month. simpl. intros (r0 & -> & Hr0)%list_elem_of_fmap.
  exists r0. split; [done|].
  destruct (r0 !! "Date") as [[s|q|ns]|]; split;
    first [by intros c Hc; rewrite lookup_insert_ne | by rewrite lookup_insert_eq].
Qed.

End CleanFacts.

(** X7. When the safety net before aggregation runs to its end, the state is
    untouched, no row was added, and every row it leaves has a timestamp in
    Date and a number in Amount; so the Month column computed next holds, for
    every row, the year-month key of that row's own date, never the text of a
    missing date. *)
Theorem clean_guarantees_types `{Pandas} (df df' : frame) (w w' : app) :
  clean df w = (Done df', w') →
  w' = w ∧
  columns df' = columns df ∧
  rows df' = omap (import_row false) (rows df) ∧
  (length (rows df') ≤ length (rows df))%nat ∧
  Forall typed_row (rows df') ∧
  ∀ r, r ∈ rows (with_month df') →
       ∃ ns, r !! "Date" = Some (Timestamp ns) ∧
             r !! "Month" = Some (Text (month_key ns)).
Proof.
  intros (-> & -> & Hd & Ha)%clean_done.
  split; [done|]. split; [done|].
  split; [apply normalize_rows|]. split; [|split].
  - rewrite normalize_rows.
    induction (rows df) as [|r l IH]; [done|]. cbn [omap list_omap].
    destruct (import_row false r); simpl; lia.
  - apply Forall_forall. intros r Hr. rewrite normalize_rows in Hr.
    apply list_elem_of_omap in Hr as (r0 & _ & Hr0).
    by eapply import_row_typed.
  - intros r (r0 & Hr0 & Hsame & Hmonth)%with_month_lookup.
    rewrite normalize_rows in Hr0.
    apply list_elem_of_omap in Hr0 as (r1 & _ & Hr1).
    destruct (import_row_typed _ _ _ Hr1) as [[ns Hns] _].
    exists ns. rewrite Hsame by done. split; [done|]. by rewrite Hmonth, Hns.
Qed.

Lemma clean_guarantees_types_witness :
  ∃ (df' : frame) (w' : @app iso_pandas),
    clean stale_file fresh_session = (Done df', w') ∧
    length (rows stale_file) = 2%nat ∧ length (rows df') = 1%nat ∧
    Forall typed_row (rows df') ∧
    ∀ r, r ∈ rows (with_month df') →
         ∃ ns, r !! "Date" = Some (Timestamp ns) ∧
               r !! "Month" = Some (Text (month_key ns)).
Proof.
  eexists _, _. split; [reflexivity|]. split; [reflexivity|].
  split; [reflexivity|].
  exact (proj2 (proj2 (proj2 (proj2 (clean_guarantees_types (H := iso_pandas)
           stale_file _ fresh_session _ eq_refl))))).
Defined.

(** ** Filters *)

Lemma col_eq_text (c s : string) (r : row) :
  col_eq c (Some (Text s)) r = true ↔ r !! c = Some (Text s).
Proof.
  unfold col_eq. destruct (r !! c) as [[t|q|ns]|]; simpl;
    try (split; [done|by intros [=]]).
  rewrite String.eqb_eq. split; [by intros ->|by intros [= ->]].
Qed.

Lemma elem_of_select (c : string) (v : option cell) (df : frame) (r : row) :
  r ∈ rows (select c v df) ↔ col_eq c v r = true ∧ r ∈ rows df.
Proof.
  unfold select. simpl. rewrite list_elem_of_filter.
  by rewrite Is_true_true.
Qed.

Lemma select_missing (c : string) (df : frame) : rows (select c None df) = [].
Proof.
  unfold select. simpl. induction (rows df) as [|r l IH]; [done|].
  rewrite filter_cons_False; [exact IH|].
  unfold col_eq. destruct (r !! c); simpl; tauto.
Qed.

(** X8. The filtered view keeps the columns and the order of the table.  A
    row is in it exactly when it is in the table, its Month is the selected
    month unless that is "All", and its Category equals the selected category
    unless that is "All"; selecting a missing category leaves no row. *)
Theorem filter_view_rows (T : frame) (m : string) (c : option cell) :
  columns (filter_view m c T) = columns T ∧
  sublist (rows (filter_view m c T)) (rows T) ∧
  (∀ r, r ∈ rows (filter_view m c T) ↔
        r ∈ rows T ∧
        (m = All ∨ r !! "Month" = Some (Text m)) ∧
        (c = Some (Text All) ∨ col_eq "Category" c r = true)) ∧
  (c = None → rows (filter_view m c T) = []).
Proof.
  unfold filter_view.
  destruct (decide (m ≠ All)) as [Hm|Hm];
    destruct (decide (c ≠ Some (Text All))) as [Hc|Hc].
  - split; [done|]. split; [|split].
    + simpl. etrans; apply sublist_filter.
    + intros r. rewrite !elem_of_select, col_eq_text. naive_solver.
    + intros ->. apply select_missing.
  - apply dec_stable in Hc. subst c. split; [done|]. split; [|split].
    + apply sublist_filter.
    + intros r. rewrite elem_of_select, col_eq_text. naive_solver.
    + done.
  - apply dec_stable in Hm. subst m. split; [done|]. split; [|split].
    + apply sublist_filter.
    + intros r. rewrite elem_of_select. naive_solver.
    + intros ->. apply select_missing.
  - apply dec_stable in Hm, Hc. subst m c. split; [done|]. split; [done|].
    split; [naive_solver|done].
Qed.

(** ** Aggregates *)

Lemma import_row_new_row `{Pandas} (R : expense_form) :
  import_row false (new_row R) = Some (new_row R).
Proof.
  unfold import_row, new_row.
  rewrite lookup_insert_eq. simpl.
  rewrite (lookup_insert_ne _ "Date" "Amount") by done.
  rewrite (lookup_insert_ne _ "Category" "Amount") by done.
  rewrite (lookup_insert_eq _ "Amount"). simpl. reflexivity.
Qed.

(** X10. On the table the dashboard aggregates (the session table after the
    safety net), adding an expense adds one record, placed last, and the
    amount entered as the last of the amounts the total is computed from;
    the records and amounts that were there stay, in their order. *)
Theorem added_expense_counts `{Pandas} (df : frame) (R : expense_form) :
  let ledger := concat df (DataFrame schema [new_row R]) in
  rows (normalize ledger) = rows (normalize df) ++ [new_row R] ∧
  amounts (normalize ledger) = amounts (normalize df) ++ [amount R] ∧
  total_amount (normalize ledger) =
    series_sum (amounts (normalize df) ++ [amount R]).
Proof.
  simpl.
  assert (rows (normalize (concat df (DataFrame schema [new_row R]))) =
          rows (normalize df) ++ [new_row R]) as Hrows.
  { rewrite !normalize_rows. simpl. rewrite omap_app. simpl.
    by rewrite import_row_new_row. }
  assert (amounts (normalize (concat df (DataFrame schema [new_row R]))) =
          amounts (normalize df) ++ [amount R]) as Hamounts.
  { unfold amounts. rewrite Hrows, omap_app. reflexivity. }
  split; [done|]. split; [done|]. unfold total_amount. by rewrite Hamounts.
Qed.

Lemma strictly_sorted_keys (l : list cell) :
  StronglySorted (λ a b, cell_ltb b a = false) l → distinct_keys l →
  StronglySorted (λ a b, cell_ltb a b = true) l.
Proof.
  induction 1 as [|a l Hl IH Ha]; intros Hd; [constructor|].
  destruct Hd as [Hne Hd]. constructor; [by apply IH|].
  apply Forall_forall. intros k Hk.
  eapply Forall_forall in Ha; [|exact Hk].
  eapply Forall_forall in Hne; [|exact Hk]. simpl in Ha, Hne.
  destruct (cell_ltb a k) eqn:Hlt; [done|].
  by rewrite (cell_ltb_total _ _ Hlt Ha) in Hne.
Qed.

Lemma group_keys_strictly_sorted (key : string) (df : frame) :
  StronglySorted (λ a b, cell_ltb a b = true) (group_keys key df).
Proof.
  apply strictly_sorted_keys; [|apply group_keys_distinct].
  apply sorted_sorted; [apply cell_ltb_asym|apply cell_leb_trans].
Qed.

Lemma groupby_sum_keys `{Pandas} (key : string) (df : frame) :
  (groupby_sum key df).*1 = group_keys key df.
Proof.
  unfold groupby_sum. rewrite <- list_fmap_compose.
  apply list_fmap_id.
Qed.

(** X11. The category breakdown has one entry for each category that
    occurs in the table and no other: its keys are in strictly ascending
    order, each key is the category of some record and carries the sum of
    the amounts of the records of that category, and the category of every
    record that has one is among the keys. *)
Theorem breakdown_lists_present_categories `{Pandas} (T : frame) :
  StronglySorted (λ a b, cell_ltb a b = true) (category_breakdown T).*1 ∧
  (∀ k s, (k, s) ∈ category_breakdown T →
     (∃ r, r ∈ rows T ∧ r !! "Category" = Some k) ∧
     s = group_sum (amounts (select "Category" (Some k) T))) ∧
  (∀ r x, r ∈ rows T → r !! "Category" = Some x →
     ∃ k s, (k, s) ∈ category_breakdown T ∧ cell_eqb x k = true).
Proof.
  unfold category_breakdown. split; [|split].
  - rewrite groupby_sum_keys. apply group_keys_strictly_sorted.
  - intros k s Hks. unfold groupby_sum in Hks.
    apply list_elem_of_fmap in Hks as (k' & [= -> ->] & Hk').
    split; [by apply group_keys_present|done].
  - intros r x Hr Hx.
    destruct (group_keys_cover "Category" T r x Hr Hx) as (k & Hk & Hxk).
    exists k, (group_total "Category" T k). split; [|done].
    unfold groupby_sum. apply list_elem_of_fmap. by exists k.
Qed.

(** ** What a finished run shows *)

Section ReportFacts.
Context `{Pandas}.

Lemma py_sorted_state (l : list (option cell)) (w w' : app)
    (o : outcome (list (option cell))) :
  py_sorted l w = (o, w') → w' = w.
Proof.
  unfold py_sorted. destruct l as [|v l]; [by intros [= _ <-]|].
  destruct (forallb _ _); by intros [= _ <-].
Qed.

(** The table the metrics are computed from, for a session table [df]. *)
Lemma dashboard_done (b : Q) (m : string) (c : option cell)
    (w w' : app) (rep : report) :
  dashboard b m c w = (Done rep, w') →
  ∃ df, session_df w = Some df ∧ empty df = false ∧
        "Date" ∈ columns df ∧ "Amount" ∈ columns df ∧
        table rep = filter_view m c (with_month (normalize df)) ∧
        total_expense rep = total_amount (table rep) ∧
        transactions rep = length (rows (table rep)) ∧
        top_category (table rep) = Done (top rep) ∧
        category_summary rep =
          (if empty (table rep) then None
           else Some (category_breakdown (table rep))) ∧
        trend rep = groupby_sum "Date" (table rep) ∧
        export rep = (if empty (table rep) then None else Some (table rep)) ∧
        screen w' = screen w ++ option_list (budget_alert (total_expense rep) b).
Proof.
  unfold dashboard, mbind, script_bind, get_session_df.
  destruct (session_df w) as [df|]; [|done].
  destruct (empty df) eqn:He; [done|]. simpl.
  destruct (clean df w) as [[cleaned| |e] w1] eqn:Ecl; [|done..].
  apply clean_done in Ecl as (-> & -> & Hd & Ha).
  destruct (py_sorted _ w) as [[l1| |e1] w2] eqn:E1; [|done..].
  apply py_sorted_state in E1 as ->.
  destruct (getitem _ _ w) as [[[]| |e2] w3] eqn:E2; [|done..].
  assert (w3 = w) as ->.
  { unfold getitem in E2. case_decide; by inversion E2. }
  destruct (py_sorted _ w) as [[l3| |e3] w4] eqn:E3 in |- *; [|done..].
  apply py_sorted_state in E3 as ->.
  destruct (top_category _) as [t| |e4] eqn:Et; [|done..].
  destruct (budget_alert _ b) as [n|] eqn:Eb; simpl; intros [= <- <-];
    exists df; simpl; rewrite Et, Eb; simpl; by rewrite ?app_nil_r.
Qed.

Lemma filter_view_subset (T : frame) (m : string) (c : option cell) (r : row) :
  r ∈ rows (filter_view m c T) → r ∈ rows T.
Proof.
  unfold filter_view.
  destruct (decide (m ≠ All)), (decide (c ≠ Some (Text All)));
    rewrite ?elem_of_select; tauto.
Qed.

Lemma filter_view_columns (T : frame) (m : string) (c : option cell) :
  columns (filter_view m c T) = columns T.
Proof.
  unfold filter_view.
  by destruct (decide (m ≠ All)), (decide (c ≠ Some (Text All))).
Qed.

Lemma cleaned_rows_dated (df : frame) (r : row) :
  r ∈ rows (with_month (normalize df)) →
  ∃ ns, r !! "Date" = Some (Timestamp ns).
Proof.
  intros (r0 & Hr0 & Hsame & _)%with_month_lookup.
  rewrite normalize_rows in Hr0.
  apply list_elem_of_omap in Hr0 as (r1 & _ & Hr1).
  destruct (import_row_typed _ _ _ Hr1) as [[ns Hns] _].
  exists ns. by rewrite Hsame.
Qed.

Lemma cleaned_rows_amount (df : frame) (r : row) :
  r ∈ rows (with_month (normalize df)) →
  ∃ q, r !! "Amount" = Some (Number q).
Proof.
  intros (r0 & Hr0 & Hsame & _)%with_month_lookup.
  rewrite normalize_rows in Hr0.
  apply list_elem_of_omap in Hr0 as (r1 & _ & Hr1).
  destruct (import_row_typed _ _ _ Hr1) as [_ [q Hq]].
  exists q. by rewrite Hsame.
Qed.

Lemma with_month_columns (df : frame) : columns (with_month df) ≠ [].
Proof.
  unfold with_month. simpl. case_decide as Hm.
  - intros Hnil. rewrite Hnil in Hm. by apply elem_of_nil in Hm.
  - by destruct (columns df).
Qed.

Lemma idxmax_from_elem (best : cell * Q) (l : list (cell * Q)) :
  idxmax_from best l ∈ (best :: l).*1.
Proof.
  revert best. induction l as [|kv l IH]; intros best; simpl.
  - by left.
  - destruct (negb (Qle_bool kv.2 best.2)).
    + right. apply IH.
    + specialize (IH best). simpl in IH.
      apply elem_of_cons in IH as [->|IH]; [by left|by do 2 right].
Qed.

End ReportFacts.

(** X12. In every run that reaches the end of the script, the daily trend
    accounts for the whole filtered view: every record of the view has an
    amount, each entry of the trend is the float64 sum of the amounts of the
    records of its date, every record's amount is an addend of exactly one
    entry, and the total shown is the float64 sum of these same amounts.  The
    dates are in strictly ascending order (one entry per date), and each of
    them is the timestamp of some record of the view. *)
Theorem trend_accounts_for_the_view `{Pandas} (b : Q) (m : string)
    (c : option cell) (w w' : app) (rep : report) :
  dashboard b m c w = (Done rep, w') →
  (∀ r, r ∈ rows (table rep) → ∃ q, r !! "Amount" = Some (Number q)) ∧
  (trend rep).*2 =
    map (λ k, group_sum (amounts (select "Date" (Some k) (table rep))))
        (trend rep).*1 ∧
  List.concat (map (λ k, amounts (select "Date" (Some k) (table rep)))
                   (trend rep).*1) ≡ₚ amounts (table rep) ∧
  total_expense rep = series_sum (amounts (table rep)) ∧
  StronglySorted (λ a b, cell_ltb a b = true) (trend rep).*1 ∧
  ∀ k, k ∈ (trend rep).*1 →
       ∃ ns r, k = Timestamp ns ∧ r ∈ rows (table rep) ∧
               r !! "Date" = Some (Timestamp ns).
Proof.
  intros (df & _ & _ & _ & _ & HT & Htot & _ & _ & _ & Htrend & _)%dashboard_done.
  rewrite Htrend.
  assert (∀ r, r ∈ rows (table rep) → ∃ ns, r !! "Date" = Some (Timestamp ns))
    as Hdated.
  { intros r Hr. rewrite HT in Hr.
    by apply filter_view_subset, cleaned_rows_dated in Hr. }
  rewrite groupby_sum_keys.
  split; [|split; [|split; [|split; [done|split]]]].
  - intros r Hr. rewrite HT in Hr.
    by apply filter_view_subset, cleaned_rows_amount in Hr.
  - unfold groupby_sum. by rewrite <- list_fmap_compose.
  - apply group_amounts_partition. intros r Hr.
    destruct (Hdated r Hr) as [ns Hns]. by eexists.
  - apply group_keys_strictly_sorted.
  - intros k Hk.
    apply group_keys_present in Hk as (r & Hr & Hrk).
    destruct (Hdated r Hr) as [ns Hns].
    exists ns, r. split; [congruence|]. done.
Qed.

Lemma trend_accounts_for_the_view_witness :
  ∃ (rep : report) (w' : @app iso_pandas),
    dashboard 150 All (Some (Text All)) started_session = (Done rep, w') ∧
    List.concat (map (λ k, amounts (select "Date" (Some k) (table rep)))
                     (trend rep).*1) ≡ₚ amounts (table rep) ∧
    StronglySorted (λ a b, cell_ltb a b = true) (trend rep).*1.
Proof.
  destruct (dashboard (H := iso_pandas) 150 All (Some (Text All)) started_session)
    as [o w'] eqn:E.
  assert (∃ rep, o = Done rep) as [rep ->].
  { change o with (o, w').1. rewrite <- E. eexists. vm_compute. reflexivity. }
  exists rep, w'. split; [reflexivity|].
  destruct (trend_accounts_for_the_view (H := iso_pandas) 150 All (Some (Text All))
              started_session w' rep E) as (_ & _ & Hperm & _ & Hsorted & _).
  by split.
Defined.

(** X13. In every run that reaches the end of the script the metrics agree
    with the table shown: the transaction count is its number of rows and the
    page gains the budget notice, if any, and nothing else.  When the view
    has no rows, the total is 0, the top category is "N/A", and there is no
    breakdown, no trend entry and no export.  When it has rows, the export is
    the view itself and the top category is one of the keys of the
    breakdown. *)
Theorem report_agrees_with_table `{Pandas} (b : Q) (m : string) (c : option cell)
    (w w' : app) (rep : report) :
  dashboard b m c w = (Done rep, w') →
  transactions rep = length (rows (table rep)) ∧
  screen w' = screen w ++ option_list (budget_alert (total_expense rep) b) ∧
  (rows (table rep) = [] →
     total_expense rep = 0%Q ∧ top rep = Text "N/A" ∧
     category_summary rep = None ∧ trend rep = [] ∧ export rep = None) ∧
  (rows (table rep) ≠ [] →
     export rep = Some (table rep) ∧
     ∃ s, category_summary rep = Some s ∧ top rep ∈ s.*1).
Proof.
  intros (df & _ & _ & _ & _ & HT & Htot & Hn & Htop & Hsum & Htrend & Hexp & Hscr)
    %dashboard_done.
  split; [done|]. split; [done|]. split.
  - intros Hrows. pose proof (empty_no_rows _ Hrows) as He.
    rewrite He in Hsum, Hexp. unfold top_category in Htop. rewrite He in Htop.
    injection Htop as <-.
    split.
    { rewrite Htot. unfold total_amount, amounts. rewrite Hrows.
      apply series_sum_nil. }
    split; [done|]. split; [done|]. split; [|done].
    rewrite Htrend. unfold groupby_sum, group_keys. by rewrite Hrows.
  - intros Hrows.
    assert (empty (table rep) = false) as He.
    { unfold empty. pose proof (with_month_columns (normalize df)) as Hcols.
      rewrite <- (filter_view_columns _ m c), <- HT in Hcols.
      destruct (columns (table rep)); [done|]. by destruct (rows (table rep)). }
    rewrite He in Hsum, Hexp. split; [done|].
    eexists. split; [exact Hsum|].
    unfold top_category in Htop. rewrite He in Htop.
    unfold category_breakdown.
    destruct (groupby_sum "Category" (table rep)) as [|kv s]; [done|].
    injection Htop as <-. apply idxmax_from_elem.
Qed.

Lemma report_agrees_with_table_witness :
  ∃ (rep : report) (w' : @app iso_pandas),
    dashboard 150 All (Some (Text "Food")) started_session = (Done rep, w') ∧
    rows (table rep) = [] ∧
    transactions rep = 0%nat ∧ top rep = Text "N/A" ∧ export rep = None ∧
    screen w' = screen started_session ++ [budget_under_control].
Proof.
  destruct (dashboard (H := iso_pandas) 150 All (Some (Text "Food")) started_session)
    as [o w'] eqn:E.
  assert (∃ rep, o = Done rep ∧ rows (table rep) = []) as (rep & -> & Hrows).
  { change o with (o, w').1. rewrite <- E. eexists.
    split; vm_compute; reflexivity. }
  exists rep, w'. split; [reflexivity|]. split; [exact Hrows|].
  destruct (report_agrees_with_table (H := iso_pandas) 150 All (Some (Text "Food"))
              started_session w' rep E) as (Hn & Hscr & Hempty & _).
  destruct (Hempty Hrows) as (Htot & Htop & _ & _ & Hexp).
  split; [by rewrite Hn, Hrows|]. split; [exact Htop|]. split; [exact Hexp|].
  by rewrite Hscr, Htot.
Defined.

(** ** The category selector *)

Lemma value_eqb_pytype (u v : option cell) :
  value_eqb u v = true → pytype_of u = pytype_of v.
Proof. by destruct u as [[]|], v as [[]|]. Qed.

Lemma unique_values_cover (l : list (option cell)) (x : option cell) :
  x ∈ l → ∃ y, y ∈ unique value_eqb l ∧ pytype_of y = pytype_of x.
Proof.
  induction l as [|y l IH]; [by intros ?%elem_of_nil|].
  intros [->|Hx]%elem_of_cons; simpl.
  - exists y. split; [by left|done].
  - destruct (IH Hx) as (u & Hu & Htype).
    destruct (value_eqb y u) eqn:Hyu.
    + exists y. split; [by left|].
      by rewrite (value_eqb_pytype _ _ Hyu).
    + exists u. split; [|done]. right. apply list_elem_of_filter.
      split; [|done]. by rewrite Hyu.
Qed.

Section SelectorFacts.
Context `{Pandas}.

Lemma py_sorted_uniform (l : list (option cell)) (t : pytype) (w : app) :
  (∀ v, v ∈ l → pytype_of v = t) →
  py_sorted l w = (Done (sorted value_ltb l), w).
Proof.
  intros Ht. unfold py_sorted. destruct l as [|v l]; [done|].
  assert (forallb (λ w, bool_decide (pytype_of w = pytype_of v)) (v :: l) = true)
    as ->; [|done].
  apply Is_true_true, forallb_True, Forall_forall. intros u Hu.
  apply bool_decide_pack. rewrite (Ht u Hu). symmetry. apply Ht. by left.
Qed.

Lemma py_sorted_mixed (l : list (option cell)) (u1 u2 : option cell) (w : app) :
  u1 ∈ l → u2 ∈ l → pytype_of u1 ≠ pytype_of u2 →
  py_sorted l w = (Raised TypeError, w).
Proof.
  intros H1 H2 Hne. unfold py_sorted. destruct l as [|v l].
  { by apply elem_of_nil in H1. }
  destruct (forallb _ _) eqn:Hall; [|done]. exfalso.
  apply Is_true_true, forallb_True in Hall.
  eapply Forall_forall in H1 as Hu1; [|exact Hall].
  eapply Forall_forall in H2 as Hu2; [|exact Hall].
  apply bool_decide_unpack in Hu1, Hu2. congruence.
Qed.

End SelectorFacts.

(** X14. When the table left by the safety net has two records whose
    categories are of different Python types (a text and a number, or a text
    and none at all, which pandas holds as the float NaN), building the
    category selector raises [TypeError]: the run ends there with nothing
    added to the page, for every budget and every selection. *)
Theorem mixed_categories_raise_type_error `{Pandas}
    (b : Q) (m : string) (c : option cell) (w : app) (df : frame) (r1 r2 : row) :
  session_df w = Some df → empty df = false →
  "Date" ∈ columns df → "Amount" ∈ columns df → "Category" ∈ columns df →
  r1 ∈ rows (normalize df) → r2 ∈ rows (normalize df) →
  pytype_of (r1 !! "Category") ≠ pytype_of (r2 !! "Category") →
  dashboard b m c w = (Raised TypeError, w).
Proof.
  intros Hdf He Hd Ha Hc H1 H2 Hne.
  unfold dashboard, mbind, script_bind.
  rewrite (get_session_df_started _ _ Hdf), He. simpl.
  rewrite clean_present by done.
  rewrite (py_sorted_uniform _ PyStr).
  2:{ intros v Hv%elem_of_unique_1. unfold column in Hv.
      apply list_elem_of_fmap in Hv as (r & -> & Hr).
      apply with_month_lookup in Hr as (r0 & _ & _ & ->). done. }
  rewrite getitem_present.
  2:{ unfold with_month. simpl. case_decide; [done|].
      apply elem_of_app. by left. }
  assert (∀ r, r ∈ rows (normalize df) →
            ∃ u, u ∈ unique value_eqb (column "Category" (with_month (normalize df)))
                 ∧ pytype_of u = pytype_of (r !! "Category")) as Hcover.
  { intros r Hr. apply unique_values_cover. unfold column, with_month. simpl.
    rewrite <- list_fmap_compose. apply list_elem_of_fmap. exists r.
    split; [|done]. simpl.
    by destruct (r !! "Date") as [[]|]; rewrite lookup_insert_ne. }
  destruct (Hcover r1 H1) as (u1 & Hu1 & Ht1).
  destruct (Hcover r2 H2) as (u2 & Hu2 & Ht2).
  rewrite (py_sorted_mixed _ u1 u2); [done..|congruence].
Qed.

Lemma mixed_categories_raise_type_error_witness :
  session_df mixed_session = Some mixed_table ∧ empty mixed_table = false ∧
  food_record ∈ rows (@normalize iso_pandas mixed_table) ∧
  uncategorised_record ∈ rows (@normalize iso_pandas mixed_table) ∧
  food_record !! "Category" = Some (Text "Food") ∧
  uncategorised_record !! "Category" = None ∧
  dashboard 0 All (Some (Text All)) mixed_session = (Raised TypeError, mixed_session).
Proof.
  assert (rows (@normalize iso_pandas mixed_table) = rows mixed_table) as Hrows
    by (vm_compute; reflexivity).
  assert (∀ c, c ∈ schema → c ∈ columns mixed_table) as Hcols by done.
  assert (food_record ∈ rows (@normalize iso_pandas mixed_table)) as H1
    by (rewrite Hrows; by left).
  assert (uncategorised_record ∈ rows (@normalize iso_pandas mixed_table)) as H2
    by (rewrite Hrows; right; by left).
  split; [reflexivity|]. split; [reflexivity|].
  split; [exact H1|]. split; [exact H2|].
  split; [reflexivity|]. split; [reflexivity|].
  apply (mixed_categories_raise_type_error (H := iso_pandas) 0 All (Some (Text All))
           mixed_session mixed_table food_record uncategorised_record
           eq_refl eq_refl); [| | |exact H1|exact H2|].
  - apply Hcols. unfold schema. rewrite !elem_of_cons. auto.
  - apply Hcols. unfold schema. rewrite !elem_of_cons. auto.
  - apply Hcols. unfold schema. rewrite !elem_of_cons. auto.
  - intros Heq. vm_compute in Heq. discriminate.
Defined.

(** ** Loading an existing file *)

(** X15. [load_data] on an existing file with a Date and an Amount column
    never fails and never drops a row: the table it returns and memoizes has
    the columns of the file and one row for each row of the file, in order,
    with Date and Amount coerced (missing where they do not parse) and every
    other cell as read; the file is not written. *)
Theorem load_data_keeps_every_row `{Pandas} (w : app) (file : csv) :
  load_cache w = None → data_file w = Some file →
  "Date" ∈ columns (read_csv file) → "Amount" ∈ columns (read_csv file) →
  ∃ (df : frame) (w' : app),
    load_data w = (Done df, w') ∧
    load_cache w' = Some df ∧ data_file w' = Some file ∧
    session_df w' = session_df w ∧ screen w' = screen w ∧
    columns df = columns (read_csv file) ∧
    Forall2 (λ r0 r,
               r !! "Date" = r0 !! "Date" ≫= to_datetime ∧
               r !! "Amount" = r0 !! "Amount" ≫= to_numeric ∧
               ∀ c, c ≠ "Date" → c ≠ "Amount" → r !! c = r0 !! c)
            (rows (read_csv file)) (rows df).
Proof.
  intros Hc Hf Hd Ha. eexists _, _.
  split; [by apply load_data_reads|]. simpl. rewrite Hf.
  split; [done|]. split; [done|]. split; [done|]. split; [done|].
  split; [done|].
  rewrite map_map.
  apply Forall2_fmap_r, Forall_Forall2_diag, Forall_forall.
  intros r _. simpl. split; [|split].
  - rewrite lookup_partial_alter_ne by done. by rewrite lookup_partial_alter_eq.
  - rewrite lookup_partial_alter_eq. by rewrite lookup_partial_alter_ne.
  - intros c Hcd Hca. by rewrite !lookup_partial_alter_ne.
Qed.

Lemma load_data_keeps_every_row_witness :
  load_cache fresh_session = None ∧
  data_file fresh_session = Some (@to_csv iso_pandas stale_file) ∧
  ("Date" ∈ columns stale_file) ∧ ("Amount" ∈ columns stale_file) ∧
  ∃ (df : frame) (w' : @app iso_pandas),
    load_data fresh_session = (Done df, w') ∧
    load_cache w' = Some df ∧
    columns df = columns stale_file ∧
    length (rows df) = 2%nat.
Proof.
  assert ("Date" ∈ columns stale_file) as Hd by by_evaluation.
  assert ("Amount" ∈ columns stale_file) as Ha by by_evaluation.
  split; [reflexivity|]. split; [reflexivity|].
  split; [exact Hd|]. split; [exact Ha|].
  destruct (load_data_keeps_every_row (H := iso_pandas) fresh_session
              (@to_csv iso_pandas stale_file) eq_refl eq_refl Hd Ha)
    as (df & w' & Hload & Hmemo & _ & _ & _ & Hcols & Hrows).
  exists df, w'. split; [exact Hload|]. split; [exact Hmemo|].
  split; [exact Hcols|].
  apply Forall2_length in Hrows. by rewrite <- Hrows.
Defined.

(** ** When the top category fails, and what it is under a selection *)

Lemma group_keys_nil (key : string) (df : frame) :
  group_keys key df = [] ↔ ∀ r, r ∈ rows df → r !! key = None.
Proof.
  split.
  - intros Hnil r Hr. destruct (r !! key) as [x|] eqn:Hx; [|done].
    destruct (group_keys_cover key df r x Hr Hx) as (k & Hk & _).
    rewrite Hnil in Hk. by apply elem_of_nil in Hk.
  - intros Hnone. unfold group_keys.
    assert (omap (λ r, r !! key) (rows df) = []) as ->; [|done].
    induction (rows df) as [|r l IH]; [done|]. cbn [omap list_omap].
    rewrite (Hnone r) by (by left). apply IH.
    intros r' Hr'. apply Hnone. by right.
Qed.

(** X16. Computing the top category fails in one case only, and then with
    [ValueError]: the filtered view is not empty and none of its records has
    a category. *)
Theorem top_category_fails_exactly `{Pandas} (T : frame) (e : exn) :
  top_category T = Raised e ↔
  e = ValueError ∧ empty T = false ∧ ∀ r, r ∈ rows T → r !! "Category" = None.
Proof.
  unfold top_category, groupby_sum. destruct (empty T) eqn:He.
  { split; [done|]. by intros (_ & ? & _). }
  destruct (group_keys "Category" T) as [|k K] eqn:EK; simpl.
  - pose proof (proj1 (group_keys_nil "Category" T) EK) as Hnone.
    split; [by intros [= <-]|by intros (-> & _)].
  - split; [done|]. intros (_ & _ & Hnone).
    pose proof (proj2 (group_keys_nil "Category" T) Hnone). congruence.
Qed.

(** X17. When a category other than "All" is selected and the filtered view
    has a row, the top category shown is the selected category. *)
Theorem selected_category_is_top `{Pandas} (T : frame) (m : string) (k : cell) :
  k ≠ Text All → columns T ≠ [] → rows (filter_view m (Some k) T) ≠ [] →
  ∃ t, top_category (filter_view m (Some k) T) = Done t ∧ cell_eqb t k = true.
Proof.
  intros Hk Hcols Hrows.
  assert (∀ r, r ∈ rows (filter_view m (Some k) T) →
               col_eq "Category" (Some k) r = true) as Hsel.
  { intros r. unfold filter_view. rewrite decide_True by congruence.
    rewrite elem_of_select. tauto. }
  set (V := filter_view m (Some k) T) in *.
  assert (empty V = false) as He.
  { unfold empty. subst V. rewrite filter_view_columns.
    destruct (columns T); [done|]. by destruct (rows (filter_view _ _ _)). }
  unfold top_category, groupby_sum. rewrite He.
  destruct (group_keys "Category" V) as [|k0 K] eqn:EK.
  { exfalso. destruct (rows V) as [|r l] eqn:Er; [done|].
    assert (r ∈ rows V) as Hr by (rewrite Er; by left).
    pose proof (proj1 (group_keys_nil "Category" V) EK r Hr) as Hnone.
    rewrite Er in Hr.
    specialize (Hsel r Hr). unfold col_eq in Hsel. by rewrite Hnone in Hsel. }
  simpl. eexists. split; [done|].
  pose proof (idxmax_from_elem (k0, group_total "Category" V k0)
                (map (λ k, (k, group_total "Category" V k)) K)) as Hin.
  change ((k0, group_total "Category" V k0) :: map _ K)
    with (map (λ k, (k, group_total "Category" V k)) (k0 :: K)) in Hin.
  rewrite <- list_fmap_compose, list_fmap_id, <- EK in Hin.
  apply group_keys_present in Hin as (r & Hr & Hcat).
  specialize (Hsel r Hr). unfold col_eq in Hsel. by rewrite Hcat in Hsel.
Qed.

Lemma selected_category_is_top_witness :
  Text "Food" ≠ Text All ∧ columns tied_table ≠ [] ∧
  rows (filter_view "2024-02" (Some (Text "Food")) tied_table) ≠ [] ∧
  ∃ t, @top_category iso_pandas
         (filter_view "2024-02" (Some (Text "Food")) tied_table) = Done t ∧
       cell_eqb t (Text "Food") = true.
Proof.
  assert (Text "Food" ≠ Text All) as Hk by discriminate.
  assert (columns tied_table ≠ []) as Hcols by discriminate.
  assert (rows (filter_view "2024-02" (Some (Text "Food")) tied_table) ≠ [])
    as Hrows.
  { intros Heq. apply (f_equal length) in Heq. vm_compute in Heq. discriminate. }
  split; [exact Hk|]. split; [exact Hcols|]. split; [exact Hrows|].
  exact (selected_category_is_top (H := iso_pandas) tied_table "2024-02"
           (Text "Food") Hk Hcols Hrows).
Defined.
